(** * Maritime article pipeline: scraping, extraction and structuring

    A shallow embedding of [backend/utils/WebScraper.py] and of the
    create-document route of [backend/routes.py], with the properties of the
    scraping pipeline stated over it.

    Python values are modelled as follows.
    - [str] is [string]; its characters are the code points below 256, and
      [isspace] is Python's [str.isspace] on them.
    - What the external libraries compute (the HTML parser of BeautifulSoup,
      [json.loads], the browsers, the completion endpoint, the clock) is not
      code of this repository: parsers and the date are parameters, and the
      outcome of every browser or network call is read from a [world]. *)

From Stdlib Require Import String Ascii List Bool Arith ZArith Lia.
Import ListNotations.
Local Open Scope string_scope.
Local Open Scope list_scope.

(** The outcome of a call that may raise: a value, or the message [str(e)] of
    the exception (an instance of [Exception]). *)
Inductive res (A : Type) : Type :=
| Ok (a : A)
| Raise (msg : string).
Arguments Ok {A} a.
Arguments Raise {A} msg.

(** ** Python string operations used by the scraper *)
Module PyStr.

(** [str.isspace] on one character (code points below 256): tab to carriage
    return, the four separators 0x1c-0x1f, space, NEL and no-break space. *)
Definition isspace (c : ascii) : bool :=
  let n := nat_of_ascii c in
  (((9 <=? n) && (n <=? 13)) || ((28 <=? n) && (n <=? 32))
   || (n =? 133) || (n =? 160))%nat.

Fixpoint lstrip (s : string) : string :=
  match s with
  | EmptyString => EmptyString
  | String c r => if isspace c then lstrip r else s
  end.

Fixpoint rstrip (s : string) : string :=
  match s with
  | EmptyString => EmptyString
  | String c r =>
      match rstrip r with
      | EmptyString => if isspace c then EmptyString else String c EmptyString
      | r' => String c r'
      end
  end.

(** [s.strip()] *)
Definition strip (s : string) : string := rstrip (lstrip s).

(** [s.split()] with no separator: the maximal runs of characters that are
    not whitespace, in order. *)
Fixpoint split (s : string) : list string :=
  match s with
  | EmptyString => []
  | String c r =>
      if isspace c then split r
      else match r with
           | EmptyString => [String c EmptyString]
           | String d _ =>
               if isspace d then String c EmptyString :: split r
               else match split r with
                    | w :: ws => String c w :: ws
                    | [] => [String c EmptyString]
                    end
           end
  end.

(** [sep.join(l)] *)
Definition join (sep : string) (l : list string) : string := String.concat sep l.

(** Truthiness of a [str]: only the empty string is false. *)
Definition truthy (s : string) : bool :=
  match s with EmptyString => false | String _ _ => true end.

(** [k in s] for two strings: [k] occurs in [s] as a substring. *)
Fixpoint substring_of (k s : string) : bool :=
  prefix k s || match s with
                | EmptyString => false
                | String _ r => substring_of k r
                end.

(** The characters of [s] that are not whitespace, in order. *)
Fixpoint nonspace (s : string) : string :=
  match s with
  | EmptyString => EmptyString
  | String c r => if isspace c then nonspace r else String c (nonspace r)
  end.

(** The characters of the strings of [l] that are not whitespace. *)
Definition letters (l : list string) : string :=
  fold_right (fun s acc => (nonspace s ++ acc)%string) "" l.

(** Every maximal run of whitespace replaced by one space: the reading of
    "collapse all runs of whitespace (including newlines) to single spaces"
    that does not go through tokens. Used as the specification of
    [join " " (split s)]. *)
Fixpoint collapse_runs (s : string) : string :=
  match s with
  | EmptyString => EmptyString
  | String c r =>
      if isspace c then
        match r with
        | EmptyString => String " " EmptyString
        | String d _ =>
            if isspace d then collapse_runs r else String " " (collapse_runs r)
        end
      else String c (collapse_runs r)
  end.

(** [s] is empty or its last character is not whitespace. *)
Fixpoint ends_clean (s : string) : bool :=
  match s with
  | EmptyString => true
  | String c EmptyString => negb (isspace c)
  | String _ r => ends_clean r
  end.

(** [s] is empty or its first character is not whitespace. *)
Definition starts_clean (s : string) : bool :=
  match s with
  | EmptyString => true
  | String c _ => negb (isspace c)
  end.

Definition trimmed (s : string) : bool := starts_clean s && ends_clean s.

(** [n] copies of [c]. *)
Fixpoint repeat_char (c : ascii) (n : nat) : string :=
  match n with
  | 0 => EmptyString
  | S k => String c (repeat_char c k)
  end.

End PyStr.

(** ** The BeautifulSoup tree and the operations the scraper calls on it *)
Module Soup.

(** A parsed document is a forest of nodes. [Text] is a [NavigableString];
    [Other] stands for the strings [get_text] skips (comments, doctype,
    declarations); [Element] is a [Tag] with its name and children. *)
#[warnings="-register-all"]
Inductive node : Type :=
| Text (s : string)
| Other (s : string)
| Element (tag : string) (children : list node).

Definition soup : Type := list node.

(** Membership of a tag name in the list given to [find_all]. *)
Definition tag_in (names : list string) (tag : string) : bool :=
  existsb (String.eqb tag) names.

(** [for element in soup.find_all(names): element.decompose()]: every element
    whose name is listed leaves the tree together with its subtree. *)
Fixpoint decompose_node (names : list string) (n : node) : list node :=
  match n with
  | Element tag children =>
      if tag_in names tag then []
      else [Element tag (flat_map (decompose_node names) children)]
  | _ => [n]
  end.

Definition decompose_all (names : list string) (d : soup) : soup :=
  flat_map (decompose_node names) d.

(** The text strings below a node, in document order. *)
Fixpoint node_strings (n : node) : list string :=
  match n with
  | Text s => [s]
  | Other _ => []
  | Element _ children => flat_map node_strings children
  end.

Definition all_strings (d : soup) : list string := flat_map node_strings d.

(** The strings [get_text] yields with [strip=True]: each text string
    stripped, those that become empty dropped. *)
Definition pieces (d : soup) : list string :=
  filter PyStr.truthy (map PyStr.strip (all_strings d)).

(** [soup.get_text(separator=sep, strip=True)] *)
Definition get_text (sep : string) (d : soup) : string :=
  PyStr.join sep (pieces d).

(** Every text string of the node lies inside an element named in [names],
    or is whitespace only. *)
Fixpoint text_only_inside (names : list string) (n : node) : bool :=
  match n with
  | Text s => negb (PyStr.truthy (PyStr.strip s))
  | Other _ => true
  | Element tag children =>
      tag_in names tag || forallb (text_only_inside names) children
  end.

End Soup.

(** ** Python values read from and written to JSON *)
Module Json.

(** What [json.loads] can return, and the dictionaries the scraper builds.
    A [dict] is the list of its items in insertion order. *)
#[warnings="-register-all"]
Inductive json : Type :=
| JNull
| JBool (b : bool)
| JInt (n : Z)
| JFloat (literal : string)
| JStr (s : string)
| JArr (items : list json)
| JObj (items : list (string * json)).

Definition is_str (k : string) (v : json) : bool :=
  match v with
  | JStr s => String.eqb k s
  | _ => false
  end.

Definition has_item (k : string) (items : list (string * json)) : bool :=
  existsb (fun kv => String.eqb k (fst kv)) items.

Definition not_iterable (type_name : string) : string :=
  "argument of type '" ++ type_name ++ "' is not iterable".

(** The expression [k in v] for a string [k]: key membership in a dict,
    element membership in a list, substring test in a str, and a
    [TypeError] on the values that are not containers. *)
Definition contains (k : string) (v : json) : res bool :=
  match v with
  | JObj items => Ok (has_item k items)
  | JArr items => Ok (existsb (is_str k) items)
  | JStr s => Ok (PyStr.substring_of k s)
  | JNull => Raise (not_iterable "NoneType")
  | JBool _ => Raise (not_iterable "bool")
  | JInt _ => Raise (not_iterable "int")
  | JFloat _ => Raise (not_iterable "float")
  end.

(** [k in v] where it is defined, [false] where it raises. *)
Definition has_key (k : string) (v : json) : bool :=
  match contains k v with
  | Ok b => b
  | Raise _ => false
  end.

(** [d.get(k)] on the items of a dict. *)
Fixpoint get (k : string) (items : list (string * json)) : option json :=
  match items with
  | [] => None
  | (k', v) :: rest => if String.eqb k k' then Some v else get k rest
  end.

(** [v[k1][k2]] when both lookups are on dicts that have the key. *)
Definition get_in (k1 k2 : string) (v : json) : option json :=
  match v with
  | JObj items =>
      match get k1 items with
      | Some (JObj inner) => get k2 inner
      | _ => None
      end
  | _ => None
  end.

End Json.

(** ** [backend/utils/WebScraper.py] *)
Module WebScraper.
Import Json.

(** The two browser kinds [self.browser] can hold. *)
Inductive backend : Type := Pyppeteer | Selenium.

(** The calls a scrape makes on the browsers and on the completion endpoint,
    in the order they are made. [Launched b] records that a browser of kind
    [b] was started and stored in [self.browser]; [Quit] and [Close] are the
    calls [browser.quit()] and [browser.close()]. *)
Inductive event : Type :=
| Launched (b : backend)
| LaunchFailed (b : backend)
| NewPage
| Goto (url : string)
| ReadContent
| ClosePage
| Get (url : string)
| PageSource
| Completion (text url : string)
| Quit
| Close.

(** The outcome of each external call of one attempt. *)
Record attempt_io : Type := {
  launch : res unit;          (* pyppeteer launch(...) *)
  chrome : res unit;          (* webdriver.Chrome(options=...) *)
  get : res unit;             (* browser.get(url) *)
  page_source : res string;   (* browser.page_source *)
  new_page : res unit;        (* browser.newPage() *)
  goto : res unit;            (* page.goto(url, ...) *)
  page_content : res string;  (* page.content() *)
  page_close : res unit;      (* page.close() *)
  completion : res string;    (* response.choices[0].message.content *)
  quit : res unit             (* browser.quit() in the handler *)
}.

(** The outcomes met by a call of [scrape_url], by attempt index. *)
Definition world : Type := nat -> attempt_io.

(** The [WebScraper] object: the field [self.browser], and the calls made so
    far (oldest first). *)
Record scraper : Type := {
  browser : option backend;
  trace : list event
}.

(** [WebScraper()] *)
Definition init : scraper := {| browser := None; trace := [] |}.

(** Computations on the scraper that may raise. *)
Definition M (A : Type) : Type := scraper -> res A * scraper.

Definition ret {A} (a : A) : M A := fun s => (Ok a, s).

Definition raise {A} (msg : string) : M A := fun s => (Raise msg, s).

Definition bind {A B} (m : M A) (k : A -> M B) : M B :=
  fun s =>
    match m s with
    | (Ok a, s') => k a s'
    | (Raise msg, s') => (Raise msg, s')
    end.

(** [try: m except Exception as e: h e]; what [h] raises is not caught. *)
Definition try_except {A} (m : M A) (h : string -> M A) : M A :=
  fun s =>
    match m s with
    | (Ok a, s') => (Ok a, s')
    | (Raise msg, s') => h msg s'
    end.

Declare Scope scraper_scope.
Delimit Scope scraper_scope with scraper.
Notation "x <- m ;; k" := (bind m (fun x => k))
  (at level 61, m at next level, right associativity) : scraper_scope.
Notation "m ;; k" := (bind m (fun _ => k))
  (at level 61, right associativity) : scraper_scope.
Local Open Scope scraper_scope.

Definition emit (e : event) : M unit :=
  fun s => (Ok tt, {| browser := browser s; trace := trace s ++ [e] |}).

(** An external call: it is recorded, then yields its outcome. *)
Definition call {A} (e : event) (outcome : res A) : M A :=
  emit e ;; fun s => (outcome, s).

Definition get_browser : M (option backend) := fun s => (Ok (browser s), s).

(** [self.browser = <a browser of kind b>] after a successful start. *)
Definition started (b : backend) : M unit :=
  fun s => (Ok tt, {| browser := Some b; trace := trace s ++ [Launched b] |}).

Definition initialize_pyppeteer (io : attempt_io) : M unit :=
  match launch io with
  | Ok _ => started Pyppeteer
  | Raise e => emit (LaunchFailed Pyppeteer) ;; raise e
  end.

Definition initialize_selenium (io : attempt_io) : M unit :=
  match chrome io with
  | Ok _ => started Selenium
  | Raise e => emit (LaunchFailed Selenium) ;; raise e
  end.

Definition cleanup (release : res unit) : M unit :=
  b <- get_browser ;;
  match b with
  | Some Selenium => call Quit release
  | Some Pyppeteer => call Close release
  | None => ret tt
  end.

Definition unwanted : list string :=
  ["style"; "script"; "header"; "footer"; "nav"; "aside"].

Definition min_length : nat := 200.

Definition error_result (msg : string) : json := JObj [("error", JStr msg)].

(** The text of a document once the unwanted elements are gone, before its
    whitespace is collapsed: the first two steps of [extract_main_content]. *)
Definition visible_text (d : Soup.soup) : string :=
  Soup.get_text " " (Soup.decompose_all unwanted d).

Section Scraper.

(** [BeautifulSoup(content, 'html.parser')], [json.loads] (with [None] for a
    [JSONDecodeError]) and [time.strftime("%Y-%m-%d")]. *)
Variable parse_html : string -> Soup.soup.
Variable json_loads : string -> option json.
Variable today : string.

(** The part of [extract_main_content] that follows the parse. *)
Definition extract_text (d : Soup.soup) : string :=
  let d := Soup.decompose_all unwanted d in
  let text := Soup.get_text " " d in
  let text := PyStr.join " " (PyStr.split text) in
  if (String.length text <? min_length)%nat then "" else text.

(** [extract_main_content(page)], given the outcome of [page.content()]. *)
Definition extract_main_content (content : res string) : string :=
  match content with
  | Ok html => extract_text (parse_html html)
  | Raise _ => ""
  end.

(** The dictionary returned when the response is not accepted. *)
Definition fallback (text url : string) : json :=
  JObj [("text", JStr text);
        ("metadata",
         JObj [("source_url", JStr url);
               ("title", JStr "Unknown");
               ("main_topics", JStr "");
               ("key_events", JStr "");
               ("author", JStr "Unknown");
               ("locations", JStr "");
               ("publication_date", JStr "");
               ("maritime_terms", JStr "");
               ("content_type", JStr "maritime_article");
               ("last_verified", JStr today)])].

(** What [process_with_llm] returns once the completion call has returned or
    raised. A [TypeError] of the key test reaches the outer handler. *)
Definition structure (text url : string) (response : res string) : json :=
  match response with
  | Raise e => error_result e
  | Ok content =>
      let result := PyStr.strip content in
      match json_loads result with
      | Some result_json =>
          match contains "text" result_json with
          | Raise e => error_result e
          | Ok false => fallback text url
          | Ok true =>
              match contains "metadata" result_json with
              | Raise e => error_result e
              | Ok false => fallback text url
              | Ok true => result_json
              end
          end
      | None => fallback text url
      end
  end.

(** [process_with_llm(text, url)]: one completion request, whose prompt is
    built from [text] and [url], then [structure]. It never raises. *)
Definition process_with_llm (text url : string) (io : attempt_io) : M json :=
  emit (Completion text url) ;;
  ret (structure text url (completion io)).

Definition retry_count : nat := 2.

(** The body of the inner [try] of [scrape_url]; [Ok r] is [return r]. *)
Definition attempt_body (url : string) (attempt : nat) (io : attempt_io)
  : M json :=
  b <- get_browser ;;
  match b with
  | None =>
      if (attempt =? 0)%nat then initialize_pyppeteer io else initialize_selenium io
  | Some _ => ret tt
  end ;;
  b <- get_browser ;;
  match b with
  | Some Selenium =>
      call (Get url) (get io) ;;
      content <- call PageSource (page_source io) ;;
      let text := Soup.get_text " " (parse_html content) in
      if (String.length text <? min_length)%nat
      then ret (error_result "No content extracted")
      else process_with_llm content url io
  | Some Pyppeteer =>
      call NewPage (new_page io) ;;
      call (Goto url) (goto io) ;;
      emit ReadContent ;;
      let content := extract_main_content (page_content io) in
      if negb (PyStr.truthy content)
      then ret (error_result "No content extracted")
      else call ClosePage (page_close io) ;; process_with_llm content url io
  | None => raise "'NoneType' object has no attribute 'newPage'"
  end.

(** The statements of the inner handler between [attempt += 1] and the test
    of [attempt == retry_count]. *)
Definition on_exception (io : attempt_io) : M unit :=
  b <- get_browser ;;
  match b with
  | Some Selenium => call Quit (quit io)
  | _ => ret tt
  end.

(** The [while attempt < retry_count] loop. [remaining] bounds the number of
    iterations left; every iteration that does not return adds one to
    [attempt]. Falling out of the loop returns [None]. *)
Fixpoint attempts (url : string) (w : world) (remaining attempt : nat)
  : M json :=
  match remaining with
  | 0 => ret JNull
  | S remaining' =>
      if (attempt <? retry_count)%nat then
        try_except (attempt_body url attempt (w attempt))
          (fun e =>
             let attempt' := attempt + 1 in
             on_exception (w attempt) ;;
             if (attempt' =? retry_count)%nat then ret (error_result e)
             else attempts url w remaining' attempt')
      else ret JNull
  end.

(** [scrape_url(url)]: the loop inside the outer [try]. *)
Definition scrape_url (url : string) (w : world) (s : scraper)
  : json * scraper :=
  match attempts url w retry_count 0 s with
  | (Ok r, s') => (r, s')
  | (Raise e, s') => (error_result e, s')
  end.

Definition main_url : string :=
  "https://www.marineinsight.com/maritime-law/what-is-imsbc-code/".

(** [main()]: a new scraper, [scrape_url] in a [try], [cleanup] in its
    [finally]. The result is the dictionary printed, or the exception of
    [cleanup]. *)
Definition main (w : world) (release : res unit) : res json * scraper :=
  let (r, s1) := scrape_url main_url w init in
  match cleanup release s1 with
  | (Ok _, s2) => (Ok r, s2)
  | (Raise e, s2) => (Raise e, s2)
  end.

End Scraper.

(** A browser session is open after a trace when the last start is not
    followed by a [Quit] or a [Close]. *)
Definition session_step (open : bool) (e : event) : bool :=
  match e with
  | Launched _ => true
  | Quit | Close => false
  | _ => open
  end.

Definition session_open (t : list event) : bool :=
  fold_left session_step t false.

Definition uses (b : backend) (e : event) : bool :=
  match b, e with
  | Selenium, (Launched Selenium | Get _ | PageSource) => true
  | Pyppeteer, (Launched Pyppeteer | NewPage | Goto _ | ReadContent | ClosePage)
      => true
  | _, _ => false
  end.

(** [scrape_url] was never handed a Selenium browser and never called one. *)
Definition selenium_free (s : scraper) : Prop :=
  browser s <> Some Selenium /\ existsb (uses Selenium) (trace s) = false.

(** The scraper holds a Pyppeteer browser and never called Selenium. *)
Definition pyppeteer_only (s : scraper) : Prop :=
  browser s = Some Pyppeteer /\ existsb (uses Selenium) (trace s) = false.

(** A scraper that holds no browser has no session open. *)
Definition held_or_closed (s : scraper) : Prop :=
  browser s = None -> session_open (trace s) = false.

(** Partial correctness of a computation: from a state in [P], the outcome
    and the final state are in [Q]. Computations are total functions, so the
    outcome always exists. *)
Definition hoare {A} (P : scraper -> Prop) (m : M A)
  (Q : res A -> scraper -> Prop) : Prop :=
  forall s, P s -> Q (fst (m s)) (snd (m s)).

(** [m] keeps the property [I] of the scraper, whatever its outcome. *)
Definition keeps {A} (I : scraper -> Prop) (m : M A) : Prop :=
  hoare I m (fun _ s => I s).

(** Every value [m] returns is in [Q]. *)
Definition returns {A} (m : M A) (Q : A -> Prop) : Prop :=
  hoare (fun _ => True) m
    (fun r _ => match r with Ok a => Q a | Raise _ => True end).

(** The value has exactly one of the keys [text] and [error]. *)
Definition tagged (r : json) : Prop :=
  xorb (has_key "text" r) (has_key "error" r) = true.

End WebScraper.

(** ** [WeaviateStore.store_documents] and the create-document route *)
Module Routes.

(** A document handed to the store: a dict from field names to strings. *)
Definition document : Type := list (string * string).

Fixpoint doc_get (k : string) (d : document) : option string :=
  match d with
  | [] => None
  | (k', v) :: rest => if String.eqb k k' then Some v else doc_get k rest
  end.

(** [doc.get(k, default)] *)
Definition get_or (k default : string) (d : document) : string :=
  match doc_get k d with
  | Some v => v
  | None => default
  end.

(** [s.split(",")]: the fields between commas, empty ones included. *)
Fixpoint split_comma (s : string) : list string :=
  match s with
  | EmptyString => [EmptyString]
  | String c r =>
      if Ascii.eqb c "," then EmptyString :: split_comma r
      else match split_comma r with
           | w :: ws => String c w :: ws
           | [] => [String c EmptyString]
           end
  end.

(** [doc.get(k, "").split(",") if doc.get(k) else []] *)
Definition get_list (k : string) (d : document) : list string :=
  match doc_get k d with
  | Some v => if PyStr.truthy v then split_comma v else []
  | None => []
  end.

(** The properties of a [MaritimeArticle] object. *)
Record properties : Type := {
  title : string;
  content : string;
  url : string;
  mainTopics : list string;
  keyEvents : list string;
  author : string;
  locations : list string;
  publicationDate : string;
  maritimeTerms : list string;
  lastVerified : string
}.

(** The text the route puts in place of the scraper's result. *)
Definition placeholder_text : string := "THIS IS THE CONTENT OF DOCUMENT 4".

Inductive http_exception : Type :=
| HTTPException (status_code : nat) (detail : string).

Section Route.

(** Vector components, the clock of the store ([datetime.now().isoformat()])
    and the outcomes of the two services. *)
Variable float : Type.
Variable now : string.

(** [openai.embeddings.create]: the [embedding] of each item of
    [response.data], or an [OpenAIError], or another exception. *)
Inductive embed_outcome : Type :=
| Embedded (data : list (list float))
| OpenAIError (msg : string)
| EmbedError (msg : string).

Variable embed : string -> embed_outcome.
Variable add_object : properties -> list float -> res string.

(** The calls a request makes on its collaborators. [Scraped] is a call of
    [scraper.scrape_url]. *)
Inductive call : Type :=
| Scraped (url : string)
| Embed (input : string)
| AddObject (p : properties) (vector : list float).

Definition properties_of (doc : document) : properties :=
  {| title := get_or "title" "Untitled" doc;
     content := get_or "text" "" doc;
     url := get_or "source_url" "" doc;
     mainTopics := get_list "main_topics" doc;
     keyEvents := get_list "key_events" doc;
     author := get_or "author" "Unknown" doc;
     locations := get_list "locations" doc;
     publicationDate := get_or "publication_date" now doc;
     maritimeTerms := get_list "maritime_terms" doc;
     lastVerified := get_or "last_verified" now doc |}.

(** [store_documents(documents, embeddings_list)]: the ids of the objects
    added, or the first exception, with the calls made. *)
Fixpoint store_documents (documents : list document)
  (embeddings_list : list (list float)) : res (list string) * list call :=
  match documents, embeddings_list with
  | doc :: documents', embedding :: embeddings' =>
      let p := properties_of doc in
      match add_object p embedding with
      | Ok id =>
          let (r, calls) := store_documents documents' embeddings' in
          (match r with
           | Ok ids => Ok (id :: ids)
           | Raise e => Raise e
           end, AddObject p embedding :: calls)
      | Raise e => (Raise e, [AddObject p embedding])
      end
  | _, _ => (Ok [], [])
  end.

(** The body of a successful response. *)
Record created : Type := {
  message : string;
  document_ids : list string;
  content_head : string;
  embeddings_head : list float
}.

(** [create_document(request)] for [request.url = url]: the response or the
    [HTTPException] raised, with the calls made. *)
Definition create_document (url : string)
  : (created + http_exception) * list call :=
  if negb (PyStr.truthy url) then
    (inr (HTTPException 400 "URL is required"), [])
  else
    let text := placeholder_text in
    if negb (PyStr.truthy text) then
      (inr (HTTPException 400 "No text content extracted"), [])
    else
      match embed text with
      | OpenAIError _ =>
          (inr (HTTPException 500 "Error generating embeddings"), [Embed text])
      | EmbedError e => (inr (HTTPException 500 e), [Embed text])
      | Embedded [] | Embedded ([] :: _) =>
          (inr (HTTPException 500 "Failed to generate embeddings"),
           [Embed text])
      | Embedded (embeddings :: _) =>
          let documents :=
            [[("text", text); ("title", "Scraped Document");
              ("source_url", url)]] in
          let (r, calls) := store_documents documents [embeddings] in
          match r with
          | Ok ids =>
              (inl {| message := "Document created and stored successfully!";
                      document_ids := ids;
                      content_head := String.substring 0 200 text;
                      embeddings_head := firstn 10 embeddings |},
               Embed text :: calls)
          | Raise e => (inr (HTTPException 500 e), Embed text :: calls)
          end
      end.

(** What a call hands to the embedding provider or to the store as the text
    of a document; [None] for a call of the scraper. *)
Definition call_text (c : call) : option string :=
  match c with
  | Scraped _ => None
  | Embed input => Some input
  | AddObject p _ => Some (content p)
  end.

End Route.

End Routes.

(** ** Concrete pages, responses and worlds *)
Module Scenarios.
Import Soup Json WebScraper.

(** A page whose only text is two letters separated by 200 spaces. *)
Definition sparse_html : string :=
  "<p>a" ++ PyStr.repeat_char " " 200 ++ "b</p>".

Definition sparse_soup : soup :=
  [Element "p" [Text ("a" ++ PyStr.repeat_char " " 200 ++ "b")]].

(** A page with only script, style and nav elements. *)
Definition chrome_only_html : string :=
  "<script>var x = 1;</script><style>p { margin: 0 }</style><nav><a>Home</a></nav>".

Definition chrome_only_soup : soup :=
  [Element "script" [Text "var x = 1;"];
   Element "style" [Text "p { margin: 0 }"];
   Element "nav" [Element "a" [Text "Home"]]].

(** Sixty words inside a paragraph, next to a script and a comment. *)
Fixpoint words (n : nat) : string :=
  match n with
  | 0 => ""
  | S k => "word " ++ words k
  end.

Definition article_html : string :=
  "<html><body><script>x</script><!-- ad --><p>" ++ words 60
  ++ "</p></body></html>".

Definition article_soup : soup :=
  [Element "html"
     [Element "body"
        [Element "script" [Text "x"]; Other " ad ";
         Element "p" [Text (words 60)]]]].

(** The parser on the pages above. *)
Definition parse (html : string) : soup :=
  if String.eqb html sparse_html then sparse_soup
  else if String.eqb html chrome_only_html then chrome_only_soup
  else if String.eqb html article_html then article_soup
  else [].

Definition dquote : string := String (ascii_of_nat 34) "".

Definition quoted (s : string) : string := dquote ++ s ++ dquote.

(** A response with [text] and [metadata] whose metadata has only a title. *)
Definition bare_reply : string :=
  "{" ++ quoted "text" ++ ": " ++ quoted "Cargo rules" ++ ", "
  ++ quoted "metadata" ++ ": {" ++ quoted "title" ++ ": " ++ quoted "IMSBC"
  ++ "}}".

Definition bare_json : json :=
  JObj [("text", JStr "Cargo rules");
        ("metadata", JObj [("title", JStr "IMSBC")])].

(** A response with [text] and [metadata] that also carries [error]. *)
Definition tagged_reply : string :=
  "{" ++ quoted "text" ++ ": " ++ quoted "Cargo rules" ++ ", "
  ++ quoted "metadata" ++ ": {}, " ++ quoted "error" ++ ": "
  ++ quoted "truncated" ++ "}".

Definition tagged_json : json :=
  JObj [("text", JStr "Cargo rules"); ("metadata", JObj []);
        ("error", JStr "truncated")].

(** [json.loads] on the responses used below; anything else does not parse. *)
Definition loads (s : string) : option json :=
  if String.eqb s "42" then Some (JInt 42)
  else if String.eqb s "null" then Some JNull
  else if String.eqb s "{}" then Some (JObj [])
  else if String.eqb s bare_reply then Some bare_json
  else if String.eqb s tagged_reply then Some tagged_json
  else None.

Definition date : string := "2025-01-15".

Definition page : string := "https://example.org/article".

(** Every call succeeds, both browsers see the sixty-word article, and the
    model answers in prose. *)
Definition ok_io : attempt_io :=
  {| launch := Ok tt; chrome := Ok tt; get := Ok tt;
     page_source := Ok article_html; new_page := Ok tt; goto := Ok tt;
     page_content := Ok article_html; page_close := Ok tt;
     completion := Ok "Sorry, I cannot summarise this page.";
     quit := Ok tt |}.

Definition with_launch (r : res unit) (io : attempt_io) : attempt_io :=
  {| launch := r; chrome := chrome io; get := get io;
     page_source := page_source io; new_page := new_page io; goto := goto io;
     page_content := page_content io; page_close := page_close io;
     completion := completion io; quit := quit io |}.

Definition with_goto (r : res unit) (io : attempt_io) : attempt_io :=
  {| launch := launch io; chrome := chrome io; get := get io;
     page_source := page_source io; new_page := new_page io; goto := r;
     page_content := page_content io; page_close := page_close io;
     completion := completion io; quit := quit io |}.

Definition with_get (r : res unit) (io : attempt_io) : attempt_io :=
  {| launch := launch io; chrome := chrome io; get := r;
     page_source := page_source io; new_page := new_page io; goto := goto io;
     page_content := page_content io; page_close := page_close io;
     completion := completion io; quit := quit io |}.

Definition with_page_content (r : res string) (io : attempt_io) : attempt_io :=
  {| launch := launch io; chrome := chrome io; get := get io;
     page_source := page_source io; new_page := new_page io; goto := goto io;
     page_content := r; page_close := page_close io;
     completion := completion io; quit := quit io |}.

Definition with_completion (r : res string) (io : attempt_io) : attempt_io :=
  {| launch := launch io; chrome := chrome io; get := get io;
     page_source := page_source io; new_page := new_page io; goto := goto io;
     page_content := page_content io; page_close := page_close io;
     completion := r; quit := quit io |}.

Definition timeout : res unit :=
  Raise "Navigation Timeout Exceeded: 30000 ms exceeded.".

(** All calls succeed. *)
Definition calm : world := fun _ => ok_io.

(** Navigation times out on the first attempt only. *)
Definition first_timeout : world :=
  fun n => if (n =? 0)%nat then with_goto timeout ok_io else ok_io.

(** Navigation times out on every attempt. *)
Definition always_timeout : world := fun _ => with_goto timeout ok_io.

(** Pyppeteer cannot start; Selenium works. *)
Definition no_pyppeteer : world :=
  fun n =>
    if (n =? 0)%nat then with_launch (Raise "Browser closed unexpectedly") ok_io
    else ok_io.

(** Pyppeteer cannot start and Selenium cannot resolve the host. *)
Definition no_route : world :=
  fun n =>
    if (n =? 0)%nat then with_launch (Raise "Browser closed unexpectedly") ok_io
    else with_get (Raise "net::ERR_NAME_NOT_RESOLVED") ok_io.

(** The first page has no text outside script, style and nav. *)
Definition blank_first : world :=
  fun n =>
    if (n =? 0)%nat then with_page_content (Ok chrome_only_html) ok_io
    else ok_io.

(** The model answers with the given text on every attempt. *)
Definition replying (reply : string) : world :=
  fun _ => with_completion (Ok reply) ok_io.

End Scenarios.

(** ** Measures on documents and traces *)
Module Measures.
Import Soup WebScraper.

(** An element named in [names] occurs in the node, at any depth. *)
Fixpoint has_tag (names : list string) (n : node) : bool :=
  match n with
  | Element tag children =>
      tag_in names tag || existsb (has_tag names) children
  | _ => false
  end.

(** A word: not empty, and no whitespace in it. *)
Fixpoint wordlike (s : string) : bool :=
  match s with
  | EmptyString => false
  | String c EmptyString => negb (PyStr.isspace c)
  | String c r => negb (PyStr.isspace c) && wordlike r
  end.

Definition is_launch (e : event) : bool :=
  match e with Launched _ => true | _ => false end.

Definition is_completion (e : event) : bool :=
  match e with Completion _ _ => true | _ => false end.

(** [page.goto(url)] or [browser.get(url)] *)
Definition is_navigation (e : event) : bool :=
  match e with Goto _ | Get _ => true | _ => false end.

Definition is_release (e : event) : bool :=
  match e with Quit | Close => true | _ => false end.

(** The number of calls of a kind in a trace. *)
Definition count (p : event -> bool) (t : list event) : nat :=
  length (filter p t).

(** The browsers started so far, plus one when none is held. *)
Definition launch_budget (s : scraper) : nat :=
  count is_launch (trace s)
  + match browser s with None => 1 | Some _ => 0 end.

(** The release call [cleanup] makes for what [self.browser] holds. *)
Definition release_call (b : option backend) : list event :=
  match b with
  | Some Selenium => [Quit]
  | Some Pyppeteer => [Close]
  | None => []
  end.

(** No comma in the string. *)
Fixpoint comma_free (s : string) : bool :=
  match s with
  | EmptyString => true
  | String c r => negb (Ascii.eqb c ",") && comma_free r
  end.

(** The call [store_documents] makes for a document and its vector. *)
Definition added (float : Type) (now : string)
  (pair : Routes.document * list float) : Routes.call float :=
  Routes.AddObject float (Routes.properties_of now (fst pair)) (snd pair).

End Measures.

(** ** [WeaviateStore.search_similar] and the perform-search route *)
Module Search.
Import Routes.

Section Search.

(** Vector components, the result type of the store query, the outcomes of
    the two services, and [str(e)] for an [HTTPException]. *)
Variable float : Type.
Variable results : Type.
Variable embed : string -> embed_outcome float.
Variable near_text : string -> nat -> res results.
Variable http_str : http_exception -> string.

(** The calls a search request makes on its collaborators. *)
Inductive search_call : Type :=
| SearchEmbed (input : string)
| NearText (query : string) (limit : nat).

(** [search_similar(query, limit)]: the result of the [near_text] query, or
    the exception it raises, raised again. *)
Definition search_similar (query : string) (limit : nat)
  : res results * list search_call :=
  (near_text query limit, [NearText query limit]).

(** The default of the [limit] parameter. *)
Definition default_limit : nat := 5.

(** [perform_search(request)] for [request.query = query]: the results or
    the [HTTPException] raised, with the calls made (the query printed to
    standard output and the log records are left out). The handlers are
    [except openai.OpenAIError] and [except Exception]: an [HTTPException]
    raised in the body is caught by the second. *)
Definition perform_search (query : string)
  : (results + http_exception) * list search_call :=
  if negb (PyStr.truthy query) then
    (inr (HTTPException 500
            (http_str (HTTPException 400 "Search query is required"))), [])
  else
    match embed query with
    | OpenAIError _ _ =>
        (inr (HTTPException 500 "Error generating search embeddings"),
         [SearchEmbed query])
    | EmbedError _ e => (inr (HTTPException 500 e), [SearchEmbed query])
    | Embedded _ [] | Embedded _ ([] :: _) =>
        (inr (HTTPException 500
                (http_str
                   (HTTPException 500 "Failed to generate query embeddings"))),
         [SearchEmbed query])
    | Embedded _ (_query_vector :: _) =>
        let (r, calls) := search_similar query default_limit in
        match r with
        | Ok similar_docs => (inl similar_docs, SearchEmbed query :: calls)
        | Raise e => (inr (HTTPException 500 e), SearchEmbed query :: calls)
        end
    end.

End Search.

End Search.

(** ** More responses and documents *)
Module MoreScenarios.
Import Json Routes.

(** A response that is one JSON string, a sentence of prose. *)
Definition prose : string := "No text or metadata could be found".

Definition prose_reply : string := Scenarios.quoted prose.

(** [json.loads] on the responses of this module. *)
Definition loads_prose (s : string) : option json :=
  if String.eqb s prose_reply then Some (JStr prose)
  else if String.eqb s "{}" then Some (JObj [])
  else None.

(** A document with three topics and no other field. *)
Definition topics_doc : document :=
  [("main_topics", "safety,cargo,ports")].

(** A store that accepts the first title it is given and refuses the rest. *)
Definition picky_store (p : properties) (v : list nat) : res string :=
  if String.eqb (title p) "first" then Ok "uuid-1"
  else Raise "batch rejected".

(** A store query that finds one document whatever is asked. *)
Definition near_text_demo (query : string) (limit : nat) : res (list string) :=
  Ok ["doc-7"].

End MoreScenarios.

(** * Properties *)

(** ** Facts about the string operations *)
Module PyStrFacts.
Import PyStr.

Example split_ex :
  split (String "009" "  two words" ++ String "010" " and more  ")
  = ["two"; "words"; "and"; "more"].
Proof. reflexivity. Qed.

Example strip_ex : strip "  a  b   " = "a  b".
Proof. reflexivity. Qed.

Example join_split_ex : join " " (split "  a  b   ") = "a b".
Proof. reflexivity. Qed.

Example collapse_runs_ex : collapse_runs "  a  b   " = " a b ".
Proof. reflexivity. Qed.

Lemma isspace_space : isspace " " = true.
Proof. reflexivity. Qed.

Lemma split_cons (c : ascii) (r : string) :
  split (String c r) =
  if isspace c then split r
  else match r with
       | EmptyString => [String c EmptyString]
       | String d _ =>
           if isspace d then String c EmptyString :: split r
           else match split r with
                | w :: ws => String c w :: ws
                | [] => [String c EmptyString]
                end
       end.
Proof. reflexivity. Qed.

(** A string that starts with a character that is not whitespace has a
    first word. *)
Lemma split_starts_word (c : ascii) (r : string) :
  isspace c = false -> exists w ws, split (String c r) = String c w :: ws.
Proof.
  intros Hc. rewrite split_cons, Hc.
  destruct r as [|d r']; [now eauto|].
  destruct (isspace d); [now eauto|].
  destruct (split (String d r')); eauto.
Qed.

Lemma split_app_space (a b : string) (c : ascii) :
  isspace c = true -> split (a ++ String c b) = split a ++ split b.
Proof.
  intros Hc. induction a as [|x a' IH].
  - cbn [append]. now rewrite split_cons, Hc.
  - cbn [append]. rewrite !split_cons.
    destruct (isspace x) eqn:Hx; [exact IH|].
    destruct a' as [|d a''].
    + cbn [append] in *. now rewrite Hc, IH.
    + cbn [append] in *. destruct (isspace d) eqn:Hd.
      * now rewrite IH.
      * rewrite IH.
        destruct (split_starts_word d a'' Hd) as (w & ws & ->).
        reflexivity.
Qed.

Lemma split_lstrip (s : string) : split (lstrip s) = split s.
Proof.
  induction s as [|c r IH]; [reflexivity|].
  cbn [lstrip]. destruct (isspace c) eqn:Hc; [|reflexivity].
  now rewrite IH, (split_cons c r), Hc.
Qed.

Lemma rstrip_empty_split (s : string) : rstrip s = "" -> split s = [].
Proof.
  induction s as [|c r IH]; [reflexivity|].
  cbn [rstrip]. destruct (rstrip r) eqn:Hr; [|discriminate].
  destruct (isspace c) eqn:Hc; [|discriminate].
  intros _. rewrite split_cons, Hc. now apply IH.
Qed.

Lemma split_rstrip (s : string) : split (rstrip s) = split s.
Proof.
  induction s as [|c r IH]; [reflexivity|].
  cbn [rstrip]. destruct (rstrip r) as [|d r'] eqn:Hr.
  - pose proof (rstrip_empty_split r Hr) as Hs.
    destruct (isspace c) eqn:Hc.
    + now rewrite split_cons, Hc, Hs.
    + rewrite (split_cons c r), (split_cons c ""), Hc, Hs.
      destruct r as [|e r'']; [reflexivity|].
      cbn [rstrip] in Hr. destruct (rstrip r''); [|discriminate].
      destruct (isspace e); [reflexivity|discriminate].
  - rewrite (split_cons c r), (split_cons c (String d r')), IH.
    destruct (isspace c) eqn:Hc; [reflexivity|].
    destruct r as [|e r'']; [discriminate|].
    assert (He : e = d).
    { cbn [rstrip] in Hr. destruct (rstrip r''); [|congruence].
      destruct (isspace e); [discriminate|congruence]. }
    now subst e.
Qed.

Lemma split_strip (s : string) : split (strip s) = split s.
Proof. unfold strip. now rewrite split_rstrip, split_lstrip. Qed.

Lemma starts_clean_lstrip (s : string) : starts_clean (lstrip s) = true.
Proof.
  induction s as [|c r IH]; [reflexivity|].
  cbn [lstrip]. destruct (isspace c) eqn:Hc; [exact IH|].
  cbn. now rewrite Hc.
Qed.

Lemma ends_clean_rstrip (s : string) : ends_clean (rstrip s) = true.
Proof.
  induction s as [|c r IH]; [reflexivity|].
  cbn [rstrip]. destruct (rstrip r) as [|d r'] eqn:Hr.
  - destruct (isspace c) eqn:Hc; [reflexivity|]. cbn. now rewrite Hc.
  - exact IH.
Qed.

Lemma starts_clean_rstrip (s : string) :
  starts_clean s = true -> starts_clean (rstrip s) = true.
Proof.
  destruct s as [|c r]; [reflexivity|].
  cbn [rstrip starts_clean]. intros Hc.
  destruct (rstrip r); [|exact Hc].
  destruct (isspace c) eqn:E; [reflexivity|]. cbn. now rewrite E.
Qed.

Lemma trimmed_strip (s : string) : trimmed (strip s) = true.
Proof.
  unfold trimmed, strip.
  now rewrite starts_clean_rstrip, ends_clean_rstrip
    by apply starts_clean_lstrip.
Qed.

Lemma starts_clean_app (a b : string) :
  a <> "" -> starts_clean (a ++ b) = starts_clean a.
Proof. destruct a; [congruence|reflexivity]. Qed.

Lemma ends_clean_app (a b : string) :
  b <> "" -> ends_clean (a ++ b) = ends_clean b.
Proof.
  intros Hb. induction a as [|c a' IH]; [reflexivity|].
  cbn [append ends_clean]. rewrite IH.
  destruct (a' ++ b)%string eqn:E; [|reflexivity].
  destruct a'; [|discriminate]. cbn in E. congruence.
Qed.

Lemma join_cons (sep x y : string) (l : list string) :
  join sep (x :: y :: l) = (x ++ sep ++ join sep (y :: l))%string.
Proof. reflexivity. Qed.

(** The text joined from trimmed, non-empty pieces is trimmed. *)
Lemma trimmed_join (l : list string) :
  Forall (fun p => trimmed p = true /\ truthy p = true) l ->
  trimmed (join " " l) = true.
Proof.
  induction 1 as [|x l [Hx Hnx] Hl IH]; [reflexivity|].
  destruct l as [|y l']; [exact Hx|].
  rewrite join_cons. unfold trimmed in *.
  apply andb_true_iff in Hx as [Hsx Hex].
  apply andb_true_iff in IH as [_ Hey].
  assert (Hne : join " " (y :: l') <> "").
  { inversion Hl as [|? ? [_ Hy] _]; subst.
    destruct y; [discriminate|]. destruct l'; discriminate. }
  rewrite starts_clean_app by (destruct x; [discriminate|congruence]).
  rewrite Hsx. cbn [andb].
  rewrite ends_clean_app by (cbn; congruence).
  change (" " ++ join " " (y :: l'))%string
    with (String " " (join " " (y :: l'))).
  cbn [ends_clean]. destruct (join " " (y :: l')); [congruence|exact Hey].
Qed.

Lemma split_join (l : list string) :
  split (join " " l) = flat_map split l.
Proof.
  induction l as [|x l IH]; [reflexivity|].
  destruct l as [|y l'].
  - cbn. now rewrite app_nil_r.
  - rewrite join_cons.
    change (x ++ " " ++ join " " (y :: l'))%string
      with (x ++ String " " (join " " (y :: l')))%string.
    rewrite split_app_space by reflexivity.
    now rewrite IH.
Qed.

(** A string that does not end in whitespace and is not empty has a word. *)
Lemma split_nonempty (s : string) :
  ends_clean s = true -> s <> "" -> split s <> [].
Proof.
  induction s as [|c r IH]; [congruence|].
  intros He _. rewrite split_cons.
  destruct (isspace c) eqn:Hc.
  - destruct r as [|d r']; [cbn in He; now rewrite Hc in He|].
    apply IH; [exact He|discriminate].
  - destruct r as [|d r']; [discriminate|].
    destruct (isspace d); [discriminate|].
    destruct (split (String d r')); discriminate.
Qed.

(** Tokenize-and-rejoin against the direct reading of run collapsing: on a
    string that does not end in whitespace they agree up to one leading
    space. *)
Lemma collapse_runs_join_split (s : string) :
  ends_clean s = true ->
  collapse_runs s =
  ((if starts_clean s then "" else " ") ++ join " " (split s))%string.
Proof.
  induction s as [|c r IH]; [reflexivity|].
  intros He. rewrite split_cons. cbn [collapse_runs starts_clean].
  destruct (isspace c) eqn:Hc; cbn [negb].
  - destruct r as [|d r']; [cbn in He; now rewrite Hc in He|].
    specialize (IH He). cbn [starts_clean] in IH.
    destruct (isspace d) eqn:Hd; cbn [negb] in IH.
    + exact IH.
    + now rewrite IH.
  - destruct r as [|d r']; [reflexivity|].
    specialize (IH He). cbn [starts_clean] in IH. rewrite IH.
    destruct (isspace d) eqn:Hd; cbn [negb].
    + pose proof (split_nonempty (String d r') He ltac:(discriminate)) as Hne.
      destruct (split (String d r')) as [|w ws]; [congruence|].
      reflexivity.
    + destruct (split_starts_word d r' Hd) as (w & ws & ->).
      destruct ws; reflexivity.
Qed.

Lemma join_split_collapse_runs (s : string) :
  trimmed s = true -> join " " (split s) = collapse_runs s.
Proof.
  unfold trimmed. intros [Hs He]%andb_true_iff.
  now rewrite (collapse_runs_join_split s He), Hs.
Qed.

Lemma length_collapse_runs (s : string) :
  String.length (collapse_runs s) <= String.length s.
Proof.
  induction s as [|c r IH]; [reflexivity|].
  cbn [collapse_runs]. destruct (isspace c).
  - destruct r as [|d r']; [reflexivity|].
    destruct (isspace d); cbn [String.length] in *; lia.
  - cbn [String.length]. lia.
Qed.

Lemma nonspace_collapse_runs (s : string) :
  nonspace (collapse_runs s) = nonspace s.
Proof.
  induction s as [|c r IH]; [reflexivity|].
  cbn [collapse_runs nonspace]. destruct (isspace c) eqn:Hc.
  - destruct r as [|d r']; [reflexivity|].
    destruct (isspace d); [exact IH|].
    cbn [nonspace]. now rewrite isspace_space.
  - cbn [nonspace]. now rewrite Hc, IH.
Qed.

Lemma nonspace_app (a b : string) :
  nonspace (a ++ b) = (nonspace a ++ nonspace b)%string.
Proof.
  induction a as [|c a' IH]; [reflexivity|].
  cbn [append nonspace]. destruct (isspace c); [exact IH|].
  cbn [append]. now rewrite IH.
Qed.

Lemma nonspace_lstrip (s : string) : nonspace (lstrip s) = nonspace s.
Proof.
  induction s as [|c r IH]; [reflexivity|].
  cbn [lstrip]. destruct (isspace c) eqn:Hc; [|reflexivity].
  cbn [nonspace]. now rewrite Hc.
Qed.

Lemma nonspace_rstrip (s : string) : nonspace (rstrip s) = nonspace s.
Proof.
  induction s as [|c r IH]; [reflexivity|].
  cbn [rstrip nonspace]. rewrite <- IH.
  destruct (rstrip r) as [|d r'].
  - destruct (isspace c) eqn:Hc; [reflexivity|]. cbn. now rewrite Hc.
  - reflexivity.
Qed.

Lemma nonspace_strip (s : string) : nonspace (strip s) = nonspace s.
Proof. unfold strip. now rewrite nonspace_rstrip, nonspace_lstrip. Qed.

(** Joining with a space adds no character that is not whitespace. *)
Lemma nonspace_join (l : list string) :
  nonspace (join " " l) = String.concat "" (map nonspace l).
Proof.
  induction l as [|x l IH]; [reflexivity|].
  destruct l as [|y l']; [reflexivity|].
  rewrite join_cons, !nonspace_app, IH. reflexivity.
Qed.

Lemma length_repeat_char (c : ascii) (n : nat) :
  String.length (repeat_char c n) = n.
Proof. induction n; cbn; congruence. Qed.

End PyStrFacts.

(** ** Facts about the document tree *)
Module SoupFacts.
Import PyStr PyStrFacts Soup.

(** Induction on a node with the hypothesis for every child. *)
Lemma node_forall_ind (P : node -> Prop) :
  (forall s, P (Text s)) ->
  (forall s, P (Other s)) ->
  (forall tag children, Forall P children -> P (Element tag children)) ->
  forall n, P n.
Proof.
  intros HT HO HE. fix IH 1. intros [s|s|tag children].
  - apply HT.
  - apply HO.
  - apply HE. induction children as [|c cs IHcs]; constructor.
    + apply IH.
    + exact IHcs.
Qed.

Lemma pieces_trimmed (d : soup) :
  Forall (fun p => trimmed p = true /\ truthy p = true) (pieces d).
Proof.
  unfold pieces. apply Forall_forall. intros p [Hin Ht]%filter_In.
  apply in_map_iff in Hin as (s & <- & _).
  split; [apply trimmed_strip|exact Ht].
Qed.

Lemma get_text_trimmed (d : soup) : trimmed (get_text " " d) = true.
Proof. apply trimmed_join, pieces_trimmed. Qed.

Lemma pieces_app (d1 d2 : soup) : pieces (d1 ++ d2) = pieces d1 ++ pieces d2.
Proof.
  unfold pieces, all_strings.
  now rewrite flat_map_app, map_app, filter_app.
Qed.

Lemma pieces_element (tag : string) (children : list node) :
  pieces [Element tag children] = pieces children.
Proof. unfold pieces, all_strings. cbn. now rewrite app_nil_r. Qed.

Lemma tag_in_incl (names names' : list string) (tag : string) :
  incl names names' -> tag_in names tag = true -> tag_in names' tag = true.
Proof.
  unfold tag_in. intros Hincl (x & Hin & Hx)%existsb_exists.
  apply existsb_exists. exists x. split; [now apply Hincl|exact Hx].
Qed.

(** A node whose text is all inside elements that get removed leaves no
    piece behind. *)
Lemma text_only_inside_pieces (names names' : list string) :
  incl names names' ->
  forall n, text_only_inside names n = true ->
            pieces (decompose_node names' n) = [].
Proof.
  intros Hincl. induction n as [s|s|tag children IH] using node_forall_ind;
    cbn [text_only_inside decompose_node]; intros H.
  - unfold pieces. cbn. now destruct (truthy (strip s)).
  - reflexivity.
  - destruct (tag_in names' tag) eqn:Hrm; [reflexivity|].
    destruct (tag_in names tag) eqn:Hin.
    { now rewrite (tag_in_incl _ _ _ Hincl Hin) in Hrm. }
    cbn [orb] in H. rewrite pieces_element.
    induction children as [|c cs IHcs]; [reflexivity|].
    cbn [forallb] in H. apply andb_true_iff in H as [Hc Hcs].
    inversion IH as [|? ? IHc IHrest]; subst.
    cbn [flat_map]. rewrite pieces_app, (IHc Hc). now apply IHcs.
Qed.

Lemma text_only_inside_get_text (names names' : list string) (d : soup) :
  incl names names' ->
  forallb (text_only_inside names) d = true ->
  get_text " " (decompose_all names' d) = "".
Proof.
  intros Hincl H. unfold get_text.
  enough (pieces (decompose_all names' d) = []) as -> by reflexivity.
  unfold decompose_all. induction d as [|n d IH]; [reflexivity|].
  cbn [forallb] in H. apply andb_true_iff in H as [Hn Hd].
  cbn [flat_map]. rewrite pieces_app.
  now rewrite (text_only_inside_pieces names names' Hincl n Hn), IH.
Qed.

Lemma nonspace_concat (sep : string) (l : list string) :
  nonspace sep = "" -> nonspace (String.concat sep l) = letters l.
Proof.
  intros Hsep. induction l as [|x l IH]; [reflexivity|].
  destruct l as [|y l'].
  - cbn. clear. induction (nonspace x); cbn; congruence.
  - change (String.concat sep (x :: y :: l'))
      with (x ++ sep ++ String.concat sep (y :: l'))%string.
    rewrite !nonspace_app, Hsep, IH. reflexivity.
Qed.

Lemma letters_pieces (l : list string) :
  letters (filter truthy (map strip l)) = letters l.
Proof.
  induction l as [|x l IH]; [reflexivity|].
  cbn [map filter]. destruct (truthy (strip x)) eqn:Hx.
  - cbn [letters fold_right]. fold (letters (filter truthy (map strip l))).
    fold (letters l). now rewrite IH, nonspace_strip.
  - cbn [letters fold_right]. fold (letters l). rewrite IH.
    rewrite <- (nonspace_strip x). now destruct (strip x).
Qed.

(** [get_text] keeps the characters that are not whitespace, in document
    order. *)
Lemma nonspace_get_text (d : soup) :
  nonspace (get_text " " d) = nonspace (String.concat "" (all_strings d)).
Proof.
  unfold get_text, join, pieces.
  rewrite !nonspace_concat by reflexivity. apply letters_pieces.
Qed.

End SoupFacts.

(** ** The content extractor *)
Module ExtractorSpec.
Import PyStr PyStrFacts Soup SoupFacts WebScraper Scenarios.

(** Tokenize-and-rejoin collapses the runs of whitespace of the visible
    text, and the threshold is tested on the collapsed text. *)
Lemma extract_text_collapse (d : soup) :
  extract_text d =
  if (String.length (collapse_runs (visible_text d)) <? min_length)%nat
  then "" else collapse_runs (visible_text d).
Proof.
  unfold extract_text, visible_text.
  now rewrite join_split_collapse_runs by apply get_text_trimmed.
Qed.

Example extract_sixty_words :
  extract_main_content parse (Ok article_html)
  = "word word word word word word word word word word word word word word word word word word word word word word word word word word word word word word word word word word word word word word word word word word word word word word word word word word word word word word word word word word word word".
Proof. vm_compute. reflexivity. Qed.

Example extract_ten_words :
  extract_text [Element "p" [Text (words 10)]] = "".
Proof. vm_compute. reflexivity. Qed.

(** C5, as stated, fails: a page whose visible text is 202 characters long,
    two letters around a run of 200 spaces, gives the empty string, not the
    collapsed text. *)
Lemma extract_sparse_page_counterexample :
  min_length <= String.length (visible_text (parse sparse_html))
  /\ collapse_runs (visible_text (parse sparse_html)) = "a b"
  /\ extract_main_content parse (Ok sparse_html) = ""
  /\ extract_main_content parse (Ok sparse_html)
     <> collapse_runs (visible_text (parse sparse_html)).
Proof.
  split; [apply Nat.leb_le; vm_compute; reflexivity|].
  split; [vm_compute; reflexivity|].
  split; [vm_compute; reflexivity|].
  vm_compute. discriminate.
Qed.

(** C5 (amended): for every HTML input whose visible text, once the style,
    script, header, footer, nav and aside elements are removed and every run
    of whitespace is collapsed to one space, has at least 200 characters,
    [extract_main_content] returns exactly that collapsed text; its
    characters other than whitespace are those of the remaining text nodes,
    in document order. *)
Theorem extract_main_content_collapsed
  (parse_html : string -> soup) (html : string) :
  min_length <= String.length (collapse_runs (visible_text (parse_html html))) ->
  extract_main_content parse_html (Ok html)
  = collapse_runs (visible_text (parse_html html))
  /\ nonspace (extract_main_content parse_html (Ok html))
     = nonspace (String.concat ""
                   (all_strings (decompose_all unwanted (parse_html html)))).
Proof.
  intros Hlen. cbn [extract_main_content].
  rewrite extract_text_collapse.
  apply Nat.ltb_ge in Hlen. rewrite Hlen. split; [reflexivity|].
  rewrite nonspace_collapse_runs. apply nonspace_get_text.
Qed.

Lemma extract_main_content_collapsed_witness :
  min_length <= String.length (collapse_runs (visible_text (parse article_html)))
  /\ extract_main_content parse (Ok article_html)
     = collapse_runs (visible_text (parse article_html)).
Proof.
  assert (H : min_length
              <= String.length
                   (collapse_runs (visible_text (parse article_html)))).
  { apply Nat.leb_le. vm_compute. reflexivity. }
  split; [exact H|].
  exact (proj1 (extract_main_content_collapsed parse article_html H)).
Defined.

(** C6: for every HTML input whose visible text after tag removal has fewer
    than 200 characters, before or after its whitespace is collapsed, and in
    particular for every input whose text all lies inside script, style and
    nav elements, [extract_main_content] returns the empty string. *)
Theorem extract_main_content_below_threshold
  (parse_html : string -> soup) (html : string) :
  String.length (visible_text (parse_html html)) < min_length
  \/ String.length (collapse_runs (visible_text (parse_html html))) < min_length
  \/ forallb (text_only_inside ["script"; "style"; "nav"]) (parse_html html)
     = true ->
  extract_main_content parse_html (Ok html) = "".
Proof.
  intros H. cbn [extract_main_content]. rewrite extract_text_collapse.
  enough (Hlt : String.length (collapse_runs (visible_text (parse_html html)))
                < min_length).
  { apply Nat.ltb_lt in Hlt. now rewrite Hlt. }
  destruct H as [H|[H|H]].
  - pose proof (length_collapse_runs (visible_text (parse_html html))). lia.
  - exact H.
  - unfold visible_text.
    rewrite (text_only_inside_get_text ["script"; "style"; "nav"] unwanted).
    + cbn. unfold min_length. lia.
    + intros x Hx. cbn in Hx |- *. intuition.
    + exact H.
Qed.

Lemma extract_main_content_below_threshold_witness :
  forallb (text_only_inside ["script"; "style"; "nav"]) (parse chrome_only_html)
  = true
  /\ extract_main_content parse (Ok chrome_only_html) = "".
Proof.
  assert (H : forallb (text_only_inside ["script"; "style"; "nav"])
                (parse chrome_only_html) = true) by reflexivity.
  split; [exact H|].
  apply (extract_main_content_below_threshold parse chrome_only_html).
  right. right. exact H.
Defined.

(** A failure of [page.content()] is swallowed: the result is empty. *)
Lemma extract_main_content_raise (parse_html : string -> soup) (e : string) :
  extract_main_content parse_html (Raise e) = "".
Proof. reflexivity. Qed.

End ExtractorSpec.

(** ** The summarizer *)
Module SummarizerSpec.
Import PyStr Json WebScraper Scenarios.

Section Summarizer.

Variable json_loads : string -> option json.
Variable today : string.

Lemma process_with_llm_structure (text url : string) (io : attempt_io)
  (s : scraper) :
  fst (process_with_llm json_loads today text url io s)
  = Ok (structure json_loads today text url (completion io)).
Proof. reflexivity. Qed.

(** A response that does not parse gives the default metadata. *)
Lemma structure_not_json (text url content : string) :
  json_loads (strip content) = None ->
  structure json_loads today text url (Ok content) = fallback today text url.
Proof. intros H. cbn. now rewrite H. Qed.

(** A response that parses to a dict without [text] or without [metadata]
    gives the default metadata. *)
Lemma structure_missing_key (text url content : string)
  (items : list (string * json)) :
  json_loads (strip content) = Some (JObj items) ->
  has_item "text" items && has_item "metadata" items = false ->
  structure json_loads today text url (Ok content) = fallback today text url.
Proof.
  intros H Hk. cbn. rewrite H. cbn.
  destruct (has_item "text" items); [|reflexivity].
  cbn in Hk. now rewrite Hk.
Qed.

(** The default metadata: unknown title and author, the multi-valued fields
    empty, the current date. *)
Lemma fallback_fields (text url : string) :
  let r := fallback today text url in
  Json.get "text" [("text", JStr text)] = Some (JStr text)
  /\ get_in "metadata" "source_url" r = Some (JStr url)
  /\ get_in "metadata" "title" r = Some (JStr "Unknown")
  /\ get_in "metadata" "author" r = Some (JStr "Unknown")
  /\ get_in "metadata" "main_topics" r = Some (JStr "")
  /\ get_in "metadata" "key_events" r = Some (JStr "")
  /\ get_in "metadata" "locations" r = Some (JStr "")
  /\ get_in "metadata" "maritime_terms" r = Some (JStr "")
  /\ get_in "metadata" "publication_date" r = Some (JStr "")
  /\ get_in "metadata" "last_verified" r = Some (JStr today).
Proof. repeat split. Qed.

(** C7, at the failing input: a response that parses to a number has no
    [text] key, yet the result is not the default metadata: the key test
    raises a [TypeError] and the result is an error dictionary. *)
Theorem process_with_llm_number_response (text url : string)
  (io : attempt_io) (s : scraper) (content : string) (n : Z) :
  completion io = Ok content ->
  json_loads (strip content) = Some (JInt n) ->
  fst (process_with_llm json_loads today text url io s)
  = Ok (error_result "argument of type 'int' is not iterable")
  /\ fst (process_with_llm json_loads today text url io s)
     <> Ok (fallback today text url).
Proof.
  intros Hc Hj. rewrite process_with_llm_structure, Hc. cbn.
  rewrite Hj. cbn. split; [reflexivity|discriminate].
Qed.

(** C8 (amended): a response that parses to a value containing [text] and
    [metadata] is returned as parsed, whatever its metadata holds; the
    current date is written to [last_verified] only in the default
    metadata. *)
Theorem process_with_llm_accepted_verbatim (text url : string)
  (io : attempt_io) (s : scraper) (content : string) (result_json : json) :
  completion io = Ok content ->
  json_loads (strip content) = Some result_json ->
  contains "text" result_json = Ok true ->
  contains "metadata" result_json = Ok true ->
  fst (process_with_llm json_loads today text url io s) = Ok result_json
  /\ get_in "metadata" "last_verified" (fallback today text url)
     = Some (JStr today).
Proof.
  intros Hc Hj Ht Hm. rewrite process_with_llm_structure, Hc. cbn.
  now rewrite Hj, Ht, Hm.
Qed.

End Summarizer.

Lemma process_with_llm_number_response_witness :
  fst (process_with_llm loads date (Scenarios.words 60) page
         (with_completion (Ok "42") ok_io) init)
  = Ok (error_result "argument of type 'int' is not iterable").
Proof.
  exact (proj1 (process_with_llm_number_response loads date
                  (Scenarios.words 60) page (with_completion (Ok "42") ok_io)
                  init "42" 42 eq_refl eq_refl)).
Defined.

(** C8, as stated, fails: the metadata of this accepted response has no
    [last_verified], and none is added. *)
Lemma process_with_llm_omitted_date_counterexample :
  loads (strip bare_reply) = Some bare_json
  /\ contains "text" bare_json = Ok true
  /\ contains "metadata" bare_json = Ok true
  /\ get_in "metadata" "last_verified" bare_json = None
  /\ exists r,
       fst (process_with_llm loads date (Scenarios.words 60) page
              (with_completion (Ok bare_reply) ok_io) init) = Ok r
       /\ get_in "metadata" "last_verified" r <> Some (JStr date).
Proof.
  repeat split. exists bare_json. split; [reflexivity|discriminate].
Qed.

Lemma process_with_llm_accepted_verbatim_witness :
  fst (process_with_llm loads date (Scenarios.words 60) page
         (with_completion (Ok bare_reply) ok_io) init) = Ok bare_json.
Proof.
  exact (proj1 (process_with_llm_accepted_verbatim loads date
                  (Scenarios.words 60) page
                  (with_completion (Ok bare_reply) ok_io) init
                  bare_reply bare_json eq_refl eq_refl eq_refl eq_refl)).
Defined.

End SummarizerSpec.

(** ** The retry orchestrator *)
Module OrchestratorSpec.
Import PyStr Json WebScraper Scenarios.

Lemma session_open_snoc (t : list event) (e : event) :
  session_open (t ++ [e]) = session_step (session_open t) e.
Proof. unfold session_open. now rewrite fold_left_app. Qed.

Lemma uses_snoc (b : backend) (t : list event) (e : event) :
  existsb (uses b) (t ++ [e]) = existsb (uses b) t || uses b e.
Proof. rewrite existsb_app. cbn. now rewrite orb_false_r. Qed.

(** Unfold the computations down to the outcomes of the external calls. *)
Ltac run :=
  unfold attempt_body, process_with_llm, on_exception, cleanup,
    initialize_pyppeteer, initialize_selenium, call, emit, started,
    get_browser, bind, ret, raise, try_except in *;
  cbn [fst snd browser trace] in *.

(** Case analysis on the next outcome or test the goal depends on. *)
Ltac split_match :=
  match goal with
  | |- context [match ?x with _ => _ end] =>
      lazymatch x with
      | context [match _ with _ => _ end] => fail
      | _ => idtac
      end;
      match type of x with
      | res _ => destruct x eqn:?
      | bool => destruct x eqn:?
      | option backend => destruct x eqn:?
      | backend => destruct x eqn:?
      end
  end; cbn [fst snd browser trace] in *.

(** Closed statements: split the conjunctions and evaluate. *)
Ltac by_compute :=
  repeat match goal with |- _ /\ _ => split end; vm_compute; reflexivity.

Ltac close_trace :=
  rewrite ?session_open_snoc, ?uses_snoc; cbn [session_step uses orb];
  rewrite ?orb_false_r; auto.

Section Rules.

Context {A : Type} (I : scraper -> Prop).

Lemma keeps_ret (a : A) : keeps I (ret a).
Proof. intros s H. exact H. Qed.

Lemma keeps_bind {B : Type} (m : M B) (k : B -> M A) :
  keeps I m -> (forall b, keeps I (k b)) -> keeps I (bind m k).
Proof.
  intros Hm Hk s H. unfold bind. specialize (Hm s H).
  destruct (m s) as [[b|e] s']; cbn [fst snd] in *.
  - now apply Hk.
  - exact Hm.
Qed.

Lemma keeps_try (m : M A) (h : string -> M A) :
  keeps I m -> (forall e, keeps I (h e)) -> keeps I (try_except m h).
Proof.
  intros Hm Hh s H. unfold try_except. specialize (Hm s H).
  destruct (m s) as [[a|e] s']; cbn [fst snd] in *.
  - exact Hm.
  - now apply Hh.
Qed.

End Rules.

Section Orchestrator.

Variable parse_html : string -> Soup.soup.
Variable json_loads : string -> option json.
Variable today : string.

Abbreviation attempt_body := (attempt_body parse_html json_loads today).
Abbreviation attempts := (attempts parse_html json_loads today).
Abbreviation scrape_url := (scrape_url parse_html json_loads today).
Abbreviation main := (main parse_html json_loads today).
Abbreviation structure := (structure json_loads today).

(** The two iterations of the loop, written out. The loop never falls
    through: the second failure returns. *)
Lemma scrape_url_unfold (url : string) (w : world) (s : scraper) :
  scrape_url url w s =
  match attempt_body url 0 (w 0) s with
  | (Ok r, s1) => (r, s1)
  | (Raise e0, s1) =>
      match on_exception (w 0) s1 with
      | (Raise q, s1') => (error_result q, s1')
      | (Ok _, s1') =>
          match attempt_body url 1 (w 1) s1' with
          | (Ok r, s2) => (r, s2)
          | (Raise e1, s2) =>
              match on_exception (w 1) s2 with
              | (Raise q, s2') => (error_result q, s2')
              | (Ok _, s2') => (error_result e1, s2')
              end
          end
      end
  end.
Proof.
  unfold scrape_url, WebScraper.scrape_url, WebScraper.attempts, retry_count.
  cbn [Nat.ltb Nat.leb Nat.eqb Nat.add]. unfold try_except, bind, ret.
  destruct (attempt_body url 0 (w 0) s) as [[r|e0] s1]; [reflexivity|].
  destruct (on_exception (w 0) s1) as [[[]|q] s1']; [|reflexivity].
  destruct (attempt_body url 1 (w 1) s1') as [[r|e1] s2]; [reflexivity|].
  destruct (on_exception (w 1) s2) as [[[]|q] s2']; reflexivity.
Qed.

(** Any property of the scraper that each attempt and each handler keeps is
    kept by the loop. *)
Lemma attempts_keeps (I : scraper -> Prop) (url : string) (w : world) :
  (forall n io, keeps I (attempt_body url n io)) ->
  (forall io, keeps I (on_exception io)) ->
  forall remaining attempt, keeps I (attempts url w remaining attempt).
Proof.
  intros Hb Hh. induction remaining as [|remaining IH]; intros attempt.
  - apply keeps_ret.
  - cbn [WebScraper.attempts].
    destruct (attempt <? retry_count)%nat; [|apply keeps_ret].
    apply keeps_try; [apply Hb|]. intros e.
    apply keeps_bind; [apply Hh|]. intros _.
    destruct (attempt + 1 =? retry_count)%nat; [apply keeps_ret|apply IH].
Qed.

Lemma scrape_url_keeps (I : scraper -> Prop) (url : string) (w : world)
  (s : scraper) :
  (forall n io, keeps I (attempt_body url n io)) ->
  (forall io, keeps I (on_exception io)) ->
  I s -> I (snd (scrape_url url w s)).
Proof.
  intros Hb Hh H.
  pose proof (attempts_keeps I url w Hb Hh retry_count 0 s H) as K.
  unfold scrape_url, WebScraper.scrape_url.
  destruct (attempts url w retry_count 0 s) as [[r|e] s']; exact K.
Qed.

Lemma attempt_body_held_or_closed (url : string) (n : nat) (io : attempt_io) :
  keeps held_or_closed (attempt_body url n io).
Proof.
  intros [b t] H. unfold held_or_closed in *. run.
  repeat split_match; try discriminate; close_trace.
Qed.

Lemma on_exception_held_or_closed (io : attempt_io) :
  keeps held_or_closed (on_exception io).
Proof.
  intros [b t] H. unfold held_or_closed in *. run.
  repeat split_match; try discriminate; close_trace.
Qed.

Lemma cleanup_releases (release : res unit) (s : scraper) :
  held_or_closed s -> session_open (trace (snd (cleanup release s))) = false.
Proof.
  destruct s as [b t]. unfold held_or_closed. intros H. run.
  repeat split_match; try discriminate; close_trace.
Qed.

(** C3 (amended): [scrape_url] does not release the browser itself; the
    release is the [cleanup] that [main] runs in its [finally]. For every url
    and every outcome of the calls, once [scrape_url] on a new scraper is
    followed by [cleanup], as in [main], no browser session is left open. *)
Theorem cleanup_after_scrape_releases (url : string) (w : world)
  (release : res unit) :
  session_open
    (trace (snd (cleanup release (snd (scrape_url url w init))))) = false
  /\ session_open (trace (snd (main w release))) = false.
Proof.
  assert (H : forall u,
             session_open
               (trace (snd (cleanup release (snd (scrape_url u w init)))))
             = false).
  { intros u. apply cleanup_releases, scrape_url_keeps.
    - intros n io. apply attempt_body_held_or_closed.
    - apply on_exception_held_or_closed.
    - intros _. reflexivity. }
  split; [apply H|].
  specialize (H main_url). unfold main, WebScraper.main.
  destruct (scrape_url main_url w init) as [r s1]. cbn [snd] in H.
  destruct (cleanup release s1) as [[[]|e] s2]; exact H.
Qed.

(** Once a Pyppeteer browser is held, an attempt neither starts nor calls a
    Selenium browser, whatever its index. *)
Lemma attempt_body_pyppeteer_only (url : string) (n : nat) (io : attempt_io) :
  keeps pyppeteer_only (attempt_body url n io).
Proof.
  intros [b t] [Hb Ht]. cbn in Hb. subst b. unfold pyppeteer_only. run.
  repeat split_match; try discriminate; cbn [browser trace];
    (split; [reflexivity|close_trace]).
Qed.

Lemma on_exception_pyppeteer_only (io : attempt_io) :
  keeps pyppeteer_only (on_exception io).
Proof.
  intros [b t] [Hb Ht]. cbn in Hb. subst b. unfold pyppeteer_only. run.
  split; [reflexivity|exact Ht].
Qed.

Lemma first_attempt_pyppeteer_only (url : string) (io : attempt_io)
  (s : scraper) :
  selenium_free s -> launch io = Ok tt ->
  pyppeteer_only (snd (attempt_body url 0 io s)).
Proof.
  destruct s as [b t]. intros [Hb Ht] Hl. cbn in Hb, Ht.
  unfold pyppeteer_only. run. rewrite Hl.
  destruct b as [[|]|]; [|congruence|];
    repeat split_match; try discriminate; cbn [browser trace];
    (split; [reflexivity|close_trace]).
Qed.

(** When Pyppeteer starts on the first attempt, no failure of that attempt
    makes [scrape_url] start or call Selenium: the second attempt finds
    [self.browser] set and goes through Pyppeteer again. *)
Lemma scrape_url_pyppeteer_only (url : string) (w : world) (s : scraper) :
  selenium_free s -> launch (w 0) = Ok tt ->
  pyppeteer_only (snd (scrape_url url w s)).
Proof.
  intros Hs Hl. rewrite scrape_url_unfold.
  pose proof (first_attempt_pyppeteer_only url (w 0) s Hs Hl) as H1.
  destruct (attempt_body url 0 (w 0) s) as [[r|e0] s1]; cbn [snd] in *;
    [exact H1|].
  pose proof (on_exception_pyppeteer_only (w 0) s1 H1) as H2.
  destruct (on_exception (w 0) s1) as [[[]|q] s1']; cbn [snd] in *;
    [|exact H2].
  pose proof (attempt_body_pyppeteer_only url 1 (w 1) s1' H2) as H3.
  destruct (attempt_body url 1 (w 1) s1') as [[r|e1] s2]; cbn [snd] in *;
    [exact H3|].
  pose proof (on_exception_pyppeteer_only (w 1) s2 H3) as H4.
  destruct (on_exception (w 1) s2) as [[[]|q] s2']; exact H4.
Qed.

(** C2 (amended): when the first attempt of a call on a new scraper reaches
    the page and extraction yields empty content, [scrape_url] returns the
    error "No content extracted" at once: there is no second attempt, no
    further call on a browser, and Selenium is not started. *)
Theorem scrape_url_empty_content_returns (url : string) (w : world) :
  launch (w 0) = Ok tt ->
  new_page (w 0) = Ok tt ->
  goto (w 0) = Ok tt ->
  extract_main_content parse_html (page_content (w 0)) = "" ->
  scrape_url url w init
  = (error_result "No content extracted",
     {| browser := Some Pyppeteer;
        trace := [Launched Pyppeteer; NewPage; Goto url; ReadContent] |}).
Proof.
  intros Hl Hn Hg He. rewrite scrape_url_unfold. run.
  rewrite Hl. cbn [fst snd browser trace]. rewrite Hn, Hg, He. reflexivity.
Qed.

(** C4: when both attempts raise, [scrape_url] returns a dictionary whose
    only key is [error], holding the message of the last exception raised:
    that of the second attempt, or that of [browser.quit()] if the handler
    of the second attempt raises in turn. Nothing is raised to the caller. *)
Theorem scrape_url_both_attempts_fail (url : string) (w : world)
  (s s1 s1' s2 : scraper) (e0 e1 : string) :
  attempt_body url 0 (w 0) s = (Raise e0, s1) ->
  on_exception (w 0) s1 = (Ok tt, s1') ->
  attempt_body url 1 (w 1) s1' = (Raise e1, s2) ->
  fst (scrape_url url w s)
  = error_result (match fst (on_exception (w 1) s2) with
                  | Ok _ => e1
                  | Raise q => q
                  end)
  /\ has_key "error" (fst (scrape_url url w s)) = true
  /\ has_key "text" (fst (scrape_url url w s)) = false.
Proof.
  intros H0 Hh H1. rewrite scrape_url_unfold, H0, Hh, H1.
  destruct (on_exception (w 1) s2) as [[[]|q] s2']; repeat split.
Qed.

(** What the summarizer returns has exactly one of [text] and [error],
    unless the response it accepts carries an [error] key itself. *)
Lemma structure_tagged (text url : string) (response : res string) :
  (forall content j,
     response = Ok content -> json_loads (strip content) = Some j ->
     has_key "error" j = false) ->
  tagged (structure text url response).
Proof.
  intros H. unfold structure, WebScraper.structure.
  destruct response as [content|e]; [|reflexivity].
  destruct (json_loads (strip content)) as [j|] eqn:Hj; [|reflexivity].
  specialize (H content j eq_refl Hj).
  destruct (contains "text" j) as [[|]|e] eqn:Ht; try reflexivity.
  destruct (contains "metadata" j) as [[|]|e] eqn:Hm; try reflexivity.
  unfold tagged, has_key at 1. now rewrite Ht, H.
Qed.

Lemma attempt_body_tagged (url : string) (n : nat) (io : attempt_io) :
  (forall content j,
     completion io = Ok content -> json_loads (strip content) = Some j ->
     has_key "error" j = false) ->
  returns (attempt_body url n io) tagged.
Proof.
  intros H [b t] _. run.
  repeat split_match; try exact I; try reflexivity;
    now apply structure_tagged.
Qed.

(** C9 (amended): for every url, and every world in which no response of the
    model parses to a value that has an [error] key, the value returned by
    [scrape_url] has exactly one of the keys [text] and [error]. *)
Theorem scrape_url_tagged (url : string) (w : world) (s : scraper) :
  (forall n content j,
     completion (w n) = Ok content -> json_loads (strip content) = Some j ->
     has_key "error" j = false) ->
  tagged (fst (scrape_url url w s)).
Proof.
  intros H. rewrite scrape_url_unfold.
  pose proof (attempt_body_tagged url 0 (w 0) (H 0) s I) as H0.
  destruct (attempt_body url 0 (w 0) s) as [[r|e0] s1]; cbn [fst] in *;
    [exact H0|].
  destruct (on_exception (w 0) s1) as [[[]|q] s1']; [|reflexivity].
  pose proof (attempt_body_tagged url 1 (w 1) (H 1) s1' I) as H1.
  destruct (attempt_body url 1 (w 1) s1') as [[r|e1] s2]; cbn [fst] in *;
    [exact H1|].
  destruct (on_exception (w 1) s2) as [[[]|q] s2']; reflexivity.
Qed.

End Orchestrator.

(** C1, at the failing input: navigation times out on the first attempt and
    every call of the second attempt succeeds. The second attempt does not
    start Selenium: it opens a new page on the Pyppeteer browser left in
    [self.browser]. The result is the one of the Pyppeteer path (the
    extracted text), not the one a Selenium attempt gives for the same page
    (the page source), which the last two parts show on a call where
    Pyppeteer cannot start. *)
Theorem scrape_url_timeout_reuses_pyppeteer :
  goto (first_timeout 0) = timeout
  /\ trace (snd (scrape_url parse loads date page first_timeout init))
     = [Launched Pyppeteer; NewPage; Goto page; NewPage; Goto page;
        ReadContent; ClosePage; Completion (extract_text article_soup) page]
  /\ browser (snd (scrape_url parse loads date page first_timeout init))
     = Some Pyppeteer
  /\ existsb (uses Selenium)
       (trace (snd (scrape_url parse loads date page first_timeout init)))
     = false
  /\ fst (scrape_url parse loads date page first_timeout init)
     = fallback date (extract_text article_soup) page
  /\ trace (snd (scrape_url parse loads date page no_pyppeteer init))
     = [LaunchFailed Pyppeteer; Launched Selenium; Get page; PageSource;
        Completion article_html page]
  /\ fst (scrape_url parse loads date page no_pyppeteer init)
     = fallback date article_html page.
Proof. by_compute. Qed.

(** C2, as stated, fails: the first page has no text outside script, style
    and nav, every call of a second attempt would succeed, and [scrape_url]
    returns after the first attempt. A navigation timeout on the same
    attempt is followed by a second attempt. *)
Lemma scrape_url_blank_page_counterexample :
  extract_main_content parse (page_content (blank_first 0)) = ""
  /\ scrape_url parse loads date page blank_first init
     = (error_result "No content extracted",
        {| browser := Some Pyppeteer;
           trace := [Launched Pyppeteer; NewPage; Goto page; ReadContent] |})
  /\ existsb (uses Selenium)
       (trace (snd (scrape_url parse loads date page blank_first init)))
     = false
  /\ trace (snd (scrape_url parse loads date page first_timeout init))
     = [Launched Pyppeteer; NewPage; Goto page; NewPage; Goto page;
        ReadContent; ClosePage; Completion (extract_text article_soup) page].
Proof. by_compute. Qed.

Lemma scrape_url_empty_content_returns_witness :
  extract_main_content parse (page_content (blank_first 0)) = ""
  /\ scrape_url parse loads date page blank_first init
     = (error_result "No content extracted",
        {| browser := Some Pyppeteer;
           trace := [Launched Pyppeteer; NewPage; Goto page; ReadContent] |}).
Proof.
  assert (H : extract_main_content parse (page_content (blank_first 0)) = "")
    by (vm_compute; reflexivity).
  split; [exact H|].
  exact (scrape_url_empty_content_returns parse loads date page blank_first
           eq_refl eq_refl eq_refl H).
Defined.

(** C3, as stated, fails: on success, on an extraction failure and on
    exhausted retries, [scrape_url] returns with the Pyppeteer session it
    started still open, and no call of [close] or [quit] in its trace. *)
Lemma scrape_url_leaves_session_open_counterexample :
  (fst (scrape_url parse loads date page calm init)
   = fallback date (extract_text article_soup) page
   /\ session_open (trace (snd (scrape_url parse loads date page calm init)))
      = true)
  /\ (fst (scrape_url parse loads date page blank_first init)
      = error_result "No content extracted"
      /\ session_open
           (trace (snd (scrape_url parse loads date page blank_first init)))
         = true)
  /\ (fst (scrape_url parse loads date page always_timeout init)
      = error_result "Navigation Timeout Exceeded: 30000 ms exceeded."
      /\ session_open
           (trace (snd (scrape_url parse loads date page always_timeout init)))
         = true).
Proof. by_compute. Qed.

Lemma scrape_url_both_attempts_fail_witness :
  attempt_body parse loads date page 0 (no_route 0) init
  = (Raise "Browser closed unexpectedly",
     {| browser := None; trace := [LaunchFailed Pyppeteer] |})
  /\ attempt_body parse loads date page 1 (no_route 1)
       {| browser := None; trace := [LaunchFailed Pyppeteer] |}
     = (Raise "net::ERR_NAME_NOT_RESOLVED",
        {| browser := Some Selenium;
           trace := [LaunchFailed Pyppeteer; Launched Selenium; Get page] |})
  /\ fst (scrape_url parse loads date page no_route init)
     = error_result "net::ERR_NAME_NOT_RESOLVED".
Proof.
  split; [reflexivity|]. split; [reflexivity|].
  exact (proj1 (scrape_url_both_attempts_fail parse loads date page no_route
                  init _ _ _ _ _ eq_refl eq_refl eq_refl)).
Defined.

(** C9, as stated, fails: the model answers with an object that has [text],
    [metadata] and [error]; it is accepted and returned as it is. *)
Lemma scrape_url_error_key_counterexample :
  fst (scrape_url parse loads date page (replying tagged_reply) init)
  = tagged_json
  /\ has_key "text"
       (fst (scrape_url parse loads date page (replying tagged_reply) init))
     = true
  /\ has_key "error"
       (fst (scrape_url parse loads date page (replying tagged_reply) init))
     = true.
Proof. by_compute. Qed.

Lemma scrape_url_tagged_witness :
  tagged (fst (scrape_url parse loads date page calm init)).
Proof.
  apply (scrape_url_tagged parse loads date page calm init).
  intros n content j Hc Hj. cbn in Hc. injection Hc as <-.
  vm_compute in Hj. discriminate.
Defined.

End OrchestratorSpec.

(** ** The create-document route *)
Module RouteSpec.
Import Routes.

Section Route.

Variable float : Type.
Variable now : string.
Variable embed : string -> embed_outcome float.
Variable add_object : properties -> list float -> res string.

Abbreviation create_document := (create_document float now embed add_object).
Abbreviation store_documents := (store_documents float now add_object).

(** Every object [store_documents] adds has the text of its document as
    content. *)
Lemma store_documents_calls (documents : list document)
  (embeddings_list : list (list float)) (text : string) :
  Forall (fun doc => get_or "text" "" doc = text) documents ->
  Forall (fun c => call_text float c = Some text)
    (snd (store_documents documents embeddings_list)).
Proof.
  intros H. revert embeddings_list.
  induction H as [|doc documents Hdoc _ IH]; intros [|embedding embeddings];
    cbn [Routes.store_documents]; try constructor.
  destruct (add_object (properties_of now doc) embedding) as [id|e].
  - specialize (IH embeddings).
    destruct (Routes.store_documents float now add_object documents embeddings)
      as [r calls].
    cbn [snd] in *. constructor; [exact (f_equal Some Hdoc)|exact IH].
  - cbn [snd]. constructor; [exact (f_equal Some Hdoc)|constructor].
Qed.

(** C10: for every non-empty url, the route calls the embedding provider
    first, on the fixed text "THIS IS THE CONTENT OF DOCUMENT 4"; every call
    it makes is a call of the provider or of the store that carries this
    text as the document text, so the scraper is never called and the text
    embedded and stored is the same for all urls. *)
Theorem create_document_placeholder (url : string) :
  url <> "" ->
  placeholder_text = "THIS IS THE CONTENT OF DOCUMENT 4"
  /\ (exists rest, snd (create_document url) = Embed float placeholder_text :: rest)
  /\ Forall (fun c => call_text float c = Some placeholder_text)
       (snd (create_document url))
  /\ ~ In (Scraped float url) (snd (create_document url)).
Proof.
  intros Hurl.
  assert (HF : Forall (fun c => call_text float c = Some placeholder_text)
                 (snd (create_document url))
               /\ exists rest,
                   snd (create_document url)
                   = Embed float placeholder_text :: rest).
  { unfold create_document, Routes.create_document.
    destruct url as [|c url']; [congruence|]. cbn [PyStr.truthy negb].
    destruct (embed placeholder_text) as [[|[|x v] data]|e|e]; cbn [snd];
      try (split; [repeat constructor|eexists; reflexivity]).
    pose proof (store_documents_calls
                  [[("text", placeholder_text); ("title", "Scraped Document");
                    ("source_url", String c url')]]
                  [x :: v] placeholder_text) as Hs.
    destruct (Routes.store_documents float now add_object
                [[("text", placeholder_text); ("title", "Scraped Document");
                  ("source_url", String c url')]] [x :: v]) as [r calls].
    cbn [snd] in Hs.
    assert (Hc : Forall (fun c0 => call_text float c0 = Some placeholder_text)
                   calls).
    { apply Hs. repeat constructor. }
    destruct r as [ids|e]; cbn [snd];
      (split; [constructor; [reflexivity|exact Hc]|eexists; reflexivity]). }
  destruct HF as [HF Hfirst].
  split; [reflexivity|]. split; [exact Hfirst|]. split; [exact HF|].
  intros Hin. rewrite Forall_forall in HF. specialize (HF _ Hin).
  discriminate.
Qed.

End Route.

(** A provider that returns one three-component vector and a store that
    hands out one id. *)
Lemma create_document_placeholder_witness :
  "https://example.org/a" <> ""
  /\ snd (create_document nat "2025-01-15T00:00:00"
           (fun _ => Embedded nat [[1; 2; 3]]) (fun _ _ => Ok "uuid-1")
           "https://example.org/a")
     = [Embed nat placeholder_text;
        AddObject nat
          {| title := "Scraped Document";
             content := placeholder_text;
             url := "https://example.org/a";
             mainTopics := []; keyEvents := []; author := "Unknown";
             locations := []; publicationDate := "2025-01-15T00:00:00";
             maritimeTerms := []; lastVerified := "2025-01-15T00:00:00" |}
          [1; 2; 3]]
  /\ Forall (fun c => call_text nat c = Some placeholder_text)
       (snd (create_document nat "2025-01-15T00:00:00"
               (fun _ => Embedded nat [[1; 2; 3]]) (fun _ _ => Ok "uuid-1")
               "https://example.org/a")).
Proof.
  assert (H : "https://example.org/a" <> "") by discriminate.
  split; [exact H|]. split; [reflexivity|].
  exact (proj1 (proj2 (proj2 (create_document_placeholder nat
                  "2025-01-15T00:00:00" (fun _ => Embedded nat [[1; 2; 3]])
                  (fun _ _ => Ok "uuid-1") "https://example.org/a" H)))).
Defined.

End RouteSpec.

(** ** More on the content extractor *)
Module ExtractorFacts.
Import PyStr PyStrFacts Soup SoupFacts WebScraper Measures Scenarios.

(** Every token [split] yields is a word. *)
Lemma split_wordlike (s : string) :
  Forall (fun w => wordlike w = true) (split s).
Proof.
  induction s as [|c r IH]; [constructor|].
  rewrite split_cons. destruct (isspace c) eqn:Hc; [exact IH|].
  destruct r as [|d r'].
  - constructor; [cbn; now rewrite Hc|constructor].
  - destruct (isspace d) eqn:Hd.
    + constructor; [cbn; now rewrite Hc|exact IH].
    + destruct (split_starts_word d r' Hd) as (w & ws & E).
      rewrite E in IH |- *. inversion IH as [|? ? Hw Hws]; subst.
      constructor; [|exact Hws].
      change (wordlike (String c (String d w)))
        with (negb (isspace c) && wordlike (String d w)).
      now rewrite Hc, Hw.
Qed.

(** A word is its own and only token. *)
Lemma wordlike_split (w : string) : wordlike w = true -> split w = [w].
Proof.
  induction w as [|c r IH]; [discriminate|].
  destruct r as [|d r'].
  - cbn [wordlike]. intros Hc%negb_true_iff. now rewrite split_cons, Hc.
  - change (wordlike (String c (String d r')))
      with (negb (isspace c) && wordlike (String d r')).
    intros [Hc%negb_true_iff Hr]%andb_true_iff.
    assert (Hd : isspace d = false).
    { destruct r'; cbn [wordlike] in Hr.
      - now apply negb_true_iff.
      - apply andb_true_iff in Hr as [Hd _]. now apply negb_true_iff. }
    rewrite split_cons, Hc, Hd, (IH Hr). reflexivity.
Qed.

Lemma flat_map_split_words (l : list string) :
  Forall (fun w => wordlike w = true) l -> flat_map split l = l.
Proof.
  induction 1 as [|w l Hw _ IH]; [reflexivity|].
  cbn [flat_map]. now rewrite (wordlike_split w Hw), IH.
Qed.

(** Tokenizing the rejoined tokens gives the tokens back. *)
Lemma split_join_split (s : string) : split (join " " (split s)) = split s.
Proof. rewrite split_join. apply flat_map_split_words, split_wordlike. Qed.

Lemma join_words_trimmed (l : list string) :
  Forall (fun w => wordlike w = true) l -> trimmed (join " " l) = true.
Proof.
  intros H. apply trimmed_join. induction H as [|w l Hw _ IH]; constructor;
    [|exact IH].
  split; [|now destruct w].
  pose proof (wordlike_split w Hw) as E.
  assert (Hs : starts_clean w = true).
  { destruct w as [|c r]; [reflexivity|]. cbn.
    destruct r; cbn [wordlike] in Hw; [exact Hw|].
    now apply andb_true_iff in Hw as [Hc _]. }
  unfold trimmed. rewrite Hs. cbn [andb].
  clear E Hs. induction w as [|c r IHw]; [reflexivity|].
  destruct r as [|d r']; [exact Hw|].
  change (wordlike (String c (String d r')))
    with (negb (isspace c) && wordlike (String d r')) in Hw.
  apply andb_true_iff in Hw as [_ Hr]. exact (IHw Hr).
Qed.

(** The tokens of the visible text are the tokens of the text strings. *)
Lemma split_get_text (d : soup) :
  split (get_text " " d) = flat_map split (all_strings d).
Proof.
  unfold get_text, pieces. rewrite split_join.
  induction (all_strings d) as [|x l IH]; [reflexivity|].
  cbn [map filter flat_map]. rewrite <- (split_strip x).
  destruct (strip x) eqn:E; cbn [truthy]; [exact IH|].
  cbn [flat_map]. now rewrite IH.
Qed.

Section Extractor.

Variable parse_html : string -> soup.

(** X1: whatever [page.content()] gives, the result of
    [extract_main_content] is empty or at least 200 characters long, has no
    whitespace at either end, and is left unchanged by a further
    tokenize-and-rejoin or by collapsing its runs of whitespace. *)
Theorem extract_main_content_normal (content : res string) :
  (extract_main_content parse_html content = ""
   \/ min_length <= String.length (extract_main_content parse_html content))
  /\ trimmed (extract_main_content parse_html content) = true
  /\ join " " (split (extract_main_content parse_html content))
     = extract_main_content parse_html content
  /\ collapse_runs (extract_main_content parse_html content)
     = extract_main_content parse_html content.
Proof.
  destruct content as [html|e]; cbn [extract_main_content];
    [|repeat split; now left].
  unfold extract_text.
  set (t := join " " (split (get_text " " (decompose_all unwanted
                                              (parse_html html))))).
  assert (Ht : trimmed t = true) by apply join_words_trimmed, split_wordlike.
  assert (Hn : join " " (split t) = t)
    by (unfold t; now rewrite split_join_split).
  destruct (String.length t <? min_length)%nat eqn:Hlen.
  - repeat split. now left.
  - apply Nat.ltb_ge in Hlen. split; [now right|]. split; [exact Ht|].
    split; [exact Hn|]. now rewrite <- (join_split_collapse_runs t Ht).
Qed.

(** X2: the result of [extract_main_content] on a page is the list of the
    words of the text strings left after the removal, in document order,
    joined by single spaces, when that has at least 200 characters, and
    empty otherwise; so the words of a result that is not empty are exactly
    those words. *)
Theorem extract_main_content_words (html : string) :
  extract_main_content parse_html (Ok html)
  = (if (String.length
           (join " " (flat_map split
                        (all_strings
                           (decompose_all unwanted (parse_html html)))))
         <? min_length)%nat
     then ""
     else join " " (flat_map split
                      (all_strings
                         (decompose_all unwanted (parse_html html)))))
  /\ (extract_main_content parse_html (Ok html) = ""
      \/ split (extract_main_content parse_html (Ok html))
         = flat_map split
             (all_strings (decompose_all unwanted (parse_html html)))).
Proof.
  cbn [extract_main_content]. unfold extract_text.
  rewrite split_get_text.
  set (ws := flat_map split
               (all_strings (decompose_all unwanted (parse_html html)))).
  split; [reflexivity|].
  destruct (String.length (join " " ws) <? min_length)%nat; [now left|].
  right. rewrite split_join. apply flat_map_split_words.
  unfold ws. clear.
  induction (all_strings (decompose_all unwanted (parse_html html)))
    as [|x l IH]; [constructor|].
  cbn [flat_map]. apply Forall_app. split; [apply split_wordlike|exact IH].
Qed.

End Extractor.

(** No listed element is left by the removal, at any depth. *)
Lemma decompose_node_clean (names : list string) (n : node) :
  existsb (has_tag names) (decompose_node names n) = false.
Proof.
  induction n as [s|s|tag children IH] using node_forall_ind;
    try reflexivity.
  cbn [decompose_node]. destruct (tag_in names tag) eqn:Ht; [reflexivity|].
  cbn [existsb has_tag]. rewrite Ht, orb_false_r. cbn [orb].
  induction children as [|c cs IHcs]; [reflexivity|].
  inversion IH as [|? ? Hc Hcs]; subst.
  cbn [flat_map]. rewrite existsb_app, Hc. now apply IHcs.
Qed.

(** X3: after [decompose_all], no element named in the list is left in the
    document, at any depth. *)
Theorem decompose_all_clean (names : list string) (d : soup) :
  existsb (has_tag names) (decompose_all names d) = false.
Proof.
  unfold decompose_all. induction d as [|n d IH]; [reflexivity|].
  cbn [flat_map]. now rewrite existsb_app, decompose_node_clean, IH.
Qed.

(** A node without listed elements is left as it is. *)
Lemma decompose_node_absent (names : list string) (n : node) :
  has_tag names n = false -> decompose_node names n = [n].
Proof.
  induction n as [s|s|tag children IH] using node_forall_ind;
    try reflexivity.
  cbn [has_tag decompose_node]. intros [Ht Hc]%orb_false_iff. rewrite Ht.
  do 2 f_equal.
  induction children as [|c cs IHcs]; [reflexivity|].
  inversion IH as [|? ? Hc1 Hcs]; subst.
  cbn [existsb] in Hc. apply orb_false_iff in Hc as [Hc0 Hc2].
  cbn [flat_map]. now rewrite (Hc1 Hc0), (IHcs Hcs Hc2).
Qed.

Lemma decompose_all_absent (names : list string) (d : soup) :
  existsb (has_tag names) d = false -> decompose_all names d = d.
Proof.
  unfold decompose_all. induction d as [|n d IH]; [reflexivity|].
  cbn [existsb flat_map]. intros [Hn Hd]%orb_false_iff.
  now rewrite (decompose_node_absent names n Hn), (IH Hd).
Qed.

(** X4: removing the listed elements a second time changes nothing, and so
    extracting from a document already stripped of the unwanted elements
    gives the same text. *)
Theorem decompose_all_idempotent (names : list string) (d : soup) :
  decompose_all names (decompose_all names d) = decompose_all names d
  /\ extract_text (decompose_all unwanted d) = extract_text d.
Proof.
  assert (H : forall ns, decompose_all ns (decompose_all ns d)
                         = decompose_all ns d).
  { intros ns. apply decompose_all_absent.
    unfold decompose_all. induction d as [|n d' IH]; [reflexivity|].
    cbn [flat_map]. now rewrite existsb_app, decompose_node_clean, IH. }
  split; [apply H|]. unfold extract_text. now rewrite H.
Qed.

End ExtractorFacts.

(** ** More on the retry orchestrator *)
Module OrchestratorFacts.
Import PyStr Json WebScraper Measures Scenarios OrchestratorSpec.

Lemma count_snoc (p : event -> bool) (t : list event) (e : event) :
  count p (t ++ [e]) = count p t + (if p e then 1 else 0).
Proof.
  unfold count. rewrite filter_app, length_app. cbn [filter].
  now destruct (p e).
Qed.

Ltac close_count :=
  rewrite ?count_snoc;
  cbn [is_launch is_completion is_navigation is_release];
  try lia.

Section Orchestrator.

Variable parse_html : string -> Soup.soup.
Variable json_loads : string -> option json.
Variable today : string.

Abbreviation attempt_body := (attempt_body parse_html json_loads today).
Abbreviation scrape_url := (scrape_url parse_html json_loads today).
Abbreviation structure := (structure json_loads today).

Lemma attempt_body_budget (m : nat) (url : string) (n : nat)
  (io : attempt_io) :
  keeps (fun s => launch_budget s = m) (attempt_body url n io).
Proof.
  intros [b t] H. unfold launch_budget in *. run.
  repeat split_match; try discriminate; cbn [browser trace]; close_count.
Qed.

Lemma on_exception_budget (m : nat) (io : attempt_io) :
  keeps (fun s => launch_budget s = m) (on_exception io).
Proof.
  intros [b t] H. unfold launch_budget in *. run.
  repeat split_match; try discriminate; cbn [browser trace]; close_count.
Qed.

Lemma attempt_body_held (b : backend) (url : string) (n : nat)
  (io : attempt_io) :
  keeps (fun s => browser s = Some b) (attempt_body url n io).
Proof.
  intros [b0 t] H. cbn in H. subst b0. run.
  repeat split_match; try discriminate; reflexivity.
Qed.

Lemma on_exception_held (b : backend) (io : attempt_io) :
  keeps (fun s => browser s = Some b) (on_exception io).
Proof.
  intros [b0 t] H. cbn in H. subst b0. run.
  repeat split_match; try discriminate; reflexivity.
Qed.

(** X5: on a scraper that holds no Selenium browser and has called none,
    once Pyppeteer starts on the first attempt no failure makes
    [scrape_url] start or call Selenium: the browser held at the end is the
    Pyppeteer one and the trace has no Selenium call. *)
Theorem scrape_url_never_falls_back (url : string) (w : world)
  (s : scraper) :
  browser s <> Some Selenium ->
  existsb (uses Selenium) (trace s) = false ->
  launch (w 0) = Ok tt ->
  browser (snd (scrape_url url w s)) = Some Pyppeteer
  /\ existsb (uses Selenium) (trace (snd (scrape_url url w s))) = false.
Proof.
  intros Hb Ht Hl.
  exact (scrape_url_pyppeteer_only parse_html json_loads today url w s
           (conj Hb Ht) Hl).
Qed.

(** X6: a call of [scrape_url] starts at most one browser. When the scraper
    already holds a browser, it starts none and still holds the same
    browser when it returns, whatever failed in between. *)
Theorem scrape_url_one_launch (url : string) (w : world) (s : scraper) :
  count is_launch (trace (snd (scrape_url url w s)))
  <= count is_launch (trace s) + 1
  /\ match browser s with
     | Some b =>
         browser (snd (scrape_url url w s)) = Some b
         /\ count is_launch (trace (snd (scrape_url url w s)))
            = count is_launch (trace s)
     | None => True
     end.
Proof.
  pose proof (scrape_url_keeps parse_html json_loads today
                (fun s' => launch_budget s' = launch_budget s) url w s
                (attempt_body_budget _ url) (on_exception_budget _) eq_refl)
    as Hb.
  cbn beta in Hb. unfold launch_budget in Hb. split.
  - destruct (browser (snd (scrape_url url w s))), (browser s); lia.
  - destruct (browser s) as [b|] eqn:E; [|exact I].
    pose proof (scrape_url_keeps parse_html json_loads today
                  (fun s' => browser s' = Some b) url w s
                  (attempt_body_held b url) (on_exception_held b) E) as Hh.
    cbn beta in Hh. rewrite Hh in Hb |- *. split; [reflexivity|lia].
Qed.

Lemma attempt_body_calls (url : string) (n : nat) (io : attempt_io)
  (s : scraper) :
  count is_navigation (trace (snd (attempt_body url n io s)))
  <= count is_navigation (trace s) + 1
  /\ match fst (attempt_body url n io s) with
     | Ok _ =>
         count is_completion (trace (snd (attempt_body url n io s)))
         <= count is_completion (trace s) + 1
     | Raise _ =>
         count is_completion (trace (snd (attempt_body url n io s)))
         = count is_completion (trace s)
     end.
Proof.
  destruct s as [b t]. run.
  repeat split_match; try discriminate; cbn [fst snd browser trace];
    split; close_count.
Qed.

Lemma on_exception_calls (p : event -> bool) (io : attempt_io) (s : scraper) :
  p Quit = false ->
  count p (trace (snd (on_exception io s))) = count p (trace s).
Proof.
  intros Hp. destruct s as [b t]. run.
  repeat split_match; cbn [snd trace]; rewrite ?count_snoc, ?Hp; lia.
Qed.

(** X7: a call of [scrape_url] navigates at most twice and sends at most
    one completion request, whatever the outcomes of the calls. *)
Theorem scrape_url_call_bounds (url : string) (w : world) (s : scraper) :
  count is_navigation (trace (snd (scrape_url url w s)))
  <= count is_navigation (trace s) + 2
  /\ count is_completion (trace (snd (scrape_url url w s)))
     <= count is_completion (trace s) + 1.
Proof.
  rewrite scrape_url_unfold.
  pose proof (attempt_body_calls url 0 (w 0) s) as [N0 C0].
  destruct (attempt_body url 0 (w 0) s) as [[r|e0] s1]; cbn [fst snd] in *;
    [lia|].
  pose proof (on_exception_calls is_navigation (w 0) s1 eq_refl) as N1.
  pose proof (on_exception_calls is_completion (w 0) s1 eq_refl) as C1.
  destruct (on_exception (w 0) s1) as [[[]|q] s1']; cbn [fst snd] in *;
    [|lia].
  pose proof (attempt_body_calls url 1 (w 1) s1') as [N2 C2].
  destruct (attempt_body url 1 (w 1) s1') as [[r|e1] s2]; cbn [fst snd] in *;
    [lia|].
  pose proof (on_exception_calls is_navigation (w 1) s2 eq_refl) as N3.
  pose proof (on_exception_calls is_completion (w 1) s2 eq_refl) as C3.
  destruct (on_exception (w 1) s2) as [[[]|q] s2']; cbn [fst snd] in *; lia.
Qed.

(** X8: when Pyppeteer cannot start on a new scraper and the Selenium
    attempt reaches a page whose text, scripts and styles included, has at
    least 200 characters, what [scrape_url] returns is the summarizer's
    result on the page source itself, not on extracted text. *)
Theorem scrape_url_selenium_fallback (url : string) (w : world)
  (e html : string) :
  launch (w 0) = Raise e ->
  chrome (w 1) = Ok tt ->
  get (w 1) = Ok tt ->
  page_source (w 1) = Ok html ->
  min_length <= String.length (Soup.get_text " " (parse_html html)) ->
  scrape_url url w init
  = (structure html url (completion (w 1)),
     {| browser := Some Selenium;
        trace := [LaunchFailed Pyppeteer; Launched Selenium; Get url;
                  PageSource; Completion html url] |}).
Proof.
  intros Hl Hc Hg Hp Hlen. apply Nat.ltb_ge in Hlen.
  rewrite scrape_url_unfold. run. rewrite Hl. cbn [fst snd browser trace].
  rewrite Hc. cbn [fst snd browser trace]. rewrite Hg, Hp.
  cbn [fst snd browser trace]. rewrite Hlen. reflexivity.
Qed.

(** X9: a failure of the completion request is not retried: when the first
    attempt extracts content and the request raises, [scrape_url] returns
    the error dictionary with the message of that exception after one
    attempt. *)
Theorem scrape_url_completion_failure (url : string) (w : world)
  (e : string) :
  launch (w 0) = Ok tt ->
  new_page (w 0) = Ok tt ->
  goto (w 0) = Ok tt ->
  extract_main_content parse_html (page_content (w 0)) <> "" ->
  page_close (w 0) = Ok tt ->
  completion (w 0) = Raise e ->
  scrape_url url w init
  = (error_result e,
     {| browser := Some Pyppeteer;
        trace := [Launched Pyppeteer; NewPage; Goto url; ReadContent;
                  ClosePage;
                  Completion
                    (extract_main_content parse_html (page_content (w 0)))
                    url] |}).
Proof.
  intros Hl Hn Hg He Hp Hc. rewrite scrape_url_unfold. run.
  rewrite Hl. cbn [fst snd browser trace]. rewrite Hn, Hg.
  destruct (extract_main_content parse_html (page_content (w 0)))
    as [|c r] eqn:E; [congruence|].
  cbn [truthy negb]. rewrite Hp. unfold WebScraper.structure.
  now rewrite Hc.
Qed.

End Orchestrator.

(** X10: [cleanup] without a browser makes no call and does not raise; with
    a browser it makes the one release call of its kind and raises what
    that call raises. It never clears [self.browser], so a second [cleanup]
    makes the same call on the same browser again. *)
Theorem cleanup_twice (r1 r2 : res unit) (s : scraper) :
  fst (cleanup r1 s) = match browser s with None => Ok tt | Some _ => r1 end
  /\ snd (cleanup r1 s)
     = {| browser := browser s;
          trace := trace s ++ release_call (browser s) |}
  /\ snd (cleanup r2 (snd (cleanup r1 s)))
     = {| browser := browser s;
          trace := trace s ++ release_call (browser s)
                   ++ release_call (browser s) |}.
Proof.
  destruct s as [[[|]|] t]; run; cbn [release_call];
    rewrite <- ?app_assoc, ?app_nil_r; repeat split.
Qed.

Lemma scrape_url_never_falls_back_witness :
  launch (first_timeout 0) = Ok tt
  /\ goto (first_timeout 0) = timeout
  /\ browser (snd (scrape_url parse loads date page first_timeout init))
     = Some Pyppeteer
  /\ existsb (uses Selenium)
       (trace (snd (scrape_url parse loads date page first_timeout init)))
     = false.
Proof.
  assert (H : browser init <> Some Selenium) by discriminate.
  split; [reflexivity|]. split; [reflexivity|].
  exact (scrape_url_never_falls_back parse loads date page first_timeout init
           H eq_refl eq_refl).
Defined.

Lemma scrape_url_selenium_fallback_witness :
  scrape_url parse loads date page no_pyppeteer init
  = (fallback date article_html page,
     {| browser := Some Selenium;
        trace := [LaunchFailed Pyppeteer; Launched Selenium; Get page;
                  PageSource; Completion article_html page] |}).
Proof.
  assert (H : min_length
              <= String.length (Soup.get_text " " (parse article_html))).
  { apply Nat.leb_le. vm_compute. reflexivity. }
  exact (scrape_url_selenium_fallback parse loads date page no_pyppeteer
           "Browser closed unexpectedly" article_html
           eq_refl eq_refl eq_refl eq_refl H).
Defined.

Lemma scrape_url_completion_failure_witness :
  fst (scrape_url parse loads date page
         (fun _ => with_completion (Raise "Rate limit reached") ok_io) init)
  = error_result "Rate limit reached".
Proof.
  assert (H : extract_main_content parse (page_content ok_io) <> "").
  { vm_compute. discriminate. }
  exact (f_equal fst
           (scrape_url_completion_failure parse loads date page
              (fun _ => with_completion (Raise "Rate limit reached") ok_io)
              "Rate limit reached" eq_refl eq_refl eq_refl H eq_refl
              eq_refl)).
Defined.

End OrchestratorFacts.

(** ** More on the summarizer *)
Module SummarizerFacts.
Import PyStr Json WebScraper Scenarios MoreScenarios SummarizerSpec.

Section Summarizer.

Variable json_loads : string -> option json.
Variable today : string.

(** X11: when the response does not parse as JSON, or parses to a dict
    without [text] or without [metadata], [process_with_llm] returns the
    text it was given with the default metadata: the url as source, title
    and author "Unknown", the other fields empty, the content type
    "maritime_article" and the current date as [last_verified]. *)
Theorem process_with_llm_default (text url : string) (io : attempt_io)
  (s : scraper) (content : string) :
  completion io = Ok content ->
  json_loads (strip content) = None
  \/ (exists items,
        json_loads (strip content) = Some (JObj items)
        /\ has_item "text" items && has_item "metadata" items = false) ->
  fst (process_with_llm json_loads today text url io s)
  = Ok (JObj [("text", JStr text);
              ("metadata",
               JObj [("source_url", JStr url);
                     ("title", JStr "Unknown");
                     ("main_topics", JStr "");
                     ("key_events", JStr "");
                     ("author", JStr "Unknown");
                     ("locations", JStr "");
                     ("publication_date", JStr "");
                     ("maritime_terms", JStr "");
                     ("content_type", JStr "maritime_article");
                     ("last_verified", JStr today)])]).
Proof.
  intros Hc H. rewrite process_with_llm_structure, Hc. f_equal.
  destruct H as [H|(items & H & Hk)].
  - now rewrite (structure_not_json json_loads today text url content H).
  - now rewrite (structure_missing_key json_loads today text url content
                   items H Hk).
Qed.

(** X12: the key test is Python's [in], so a response that parses to a JSON
    string in which "text" and "metadata" occur as substrings is accepted:
    [process_with_llm] returns that string, not a dictionary. *)
Theorem process_with_llm_accepts_string (text url : string)
  (io : attempt_io) (s : scraper) (content sentence : string) :
  completion io = Ok content ->
  json_loads (strip content) = Some (JStr sentence) ->
  substring_of "text" sentence = true ->
  substring_of "metadata" sentence = true ->
  fst (process_with_llm json_loads today text url io s) = Ok (JStr sentence).
Proof.
  intros Hc Hj Ht Hm. rewrite process_with_llm_structure, Hc.
  unfold structure. rewrite Hj. cbn [contains]. now rewrite Ht, Hm.
Qed.

End Summarizer.

Lemma process_with_llm_default_witness :
  fst (process_with_llm loads date "article" page
         (with_completion (Ok "  {}  ") ok_io) init)
  = Ok (fallback date "article" page).
Proof.
  apply (process_with_llm_default loads date "article" page
           (with_completion (Ok "  {}  ") ok_io) init "  {}  " eq_refl).
  right. exists []. split; reflexivity.
Defined.

Lemma process_with_llm_accepts_string_witness :
  fst (process_with_llm loads_prose date "article" page
         (with_completion (Ok prose_reply) ok_io) init)
  = Ok (JStr prose).
Proof.
  exact (process_with_llm_accepts_string loads_prose date "article" page
           (with_completion (Ok prose_reply) ok_io) init prose_reply prose
           eq_refl eq_refl eq_refl eq_refl).
Defined.

End SummarizerFacts.

(** ** The store and the two routes *)
Module StoreFacts.
Import PyStr Routes Measures MoreScenarios.

Lemma split_comma_free (s : string) :
  comma_free s = true -> split_comma s = [s].
Proof.
  induction s as [|c r IH]; [reflexivity|].
  cbn [comma_free split_comma]. intros [Hc Hr]%andb_true_iff.
  apply negb_true_iff in Hc. now rewrite Hc, (IH Hr).
Qed.

Lemma split_comma_app (a b : string) :
  comma_free a = true ->
  split_comma (a ++ String "," b) = a :: split_comma b.
Proof.
  induction a as [|c r IH]; [reflexivity|].
  cbn [comma_free append split_comma]. intros [Hc Hr]%andb_true_iff.
  apply negb_true_iff in Hc. now rewrite Hc, (IH Hr).
Qed.

(** Splitting a comma-joined list of comma-free items gives the items. *)
Lemma split_comma_concat (l : list string) :
  l <> [] -> Forall (fun x => comma_free x = true) l ->
  split_comma (String.concat "," l) = l.
Proof.
  intros Hne H. induction H as [|x l Hx Hl IH]; [congruence|].
  destruct l as [|y l'].
  - now apply split_comma_free.
  - change (String.concat "," (x :: y :: l'))
      with (x ++ String "," (String.concat "," (y :: l')))%string.
    rewrite (split_comma_app _ _ Hx). f_equal. apply IH. discriminate.
Qed.

Section Store.

Variable float : Type.
Variable now : string.
Variable add_object : properties -> list float -> res string.

Abbreviation store_documents := (store_documents float now add_object).

Abbreviation added := (added float now).




End Store.




End StoreFacts.

(** ** More on the create-document route *)
Module RouteFacts.
Import PyStr Routes.

Section Route.

Variable float : Type.
Variable now : string.
Variable embed : string -> embed_outcome float.
Variable add_object : properties -> list float -> res string.

Abbreviation create_document := (create_document float now embed add_object).

(** The object the route stores for a url. *)
Lemma route_properties (url : string) :
  properties_of now
    [("text", placeholder_text); ("title", "Scraped Document");
     ("source_url", url)]
  = {| title := "Scraped Document"; content := placeholder_text; url := url;
       mainTopics := []; keyEvents := []; author := "Unknown";
       locations := []; publicationDate := now; maritimeTerms := [];
       lastVerified := now |}.
Proof. reflexivity. Qed.

(** The outcomes of the route on a url that is not empty. *)
Lemma create_document_cases (c : ascii) (r : string) :
  let url := String c r in
  let p := properties_of now
             [("text", placeholder_text); ("title", "Scraped Document");
              ("source_url", url)] in
  create_document url =
  match embed placeholder_text with
  | OpenAIError _ _ =>
      (inr (HTTPException 500 "Error generating embeddings"),
       [Embed float placeholder_text])
  | EmbedError _ e =>
      (inr (HTTPException 500 e), [Embed float placeholder_text])
  | Embedded _ [] | Embedded _ ([] :: _) =>
      (inr (HTTPException 500 "Failed to generate embeddings"),
       [Embed float placeholder_text])
  | Embedded _ ((x :: v) :: _) =>
      match add_object p (x :: v) with
      | Ok id =>
          (inl {| message := "Document created and stored successfully!";
                  document_ids := [id];
                  content_head := placeholder_text;
                  embeddings_head := firstn 10 (x :: v) |},
           [Embed float placeholder_text; AddObject float p (x :: v)])
      | Raise e =>
          (inr (HTTPException 500 e),
           [Embed float placeholder_text; AddObject float p (x :: v)])
      end
  end.
Proof.
  cbv zeta. unfold create_document, Routes.create_document.
  cbn [truthy negb].
  destruct (embed placeholder_text) as [[|[|x v] data]|e|e]; try reflexivity.
  cbn [store_documents].
  destruct (add_object _ (x :: v)) as [id|e]; reflexivity.
Qed.

(** X16: the route answers 400 exactly when the url is empty, and then
    makes no call; every other failure, of the embedding provider or of the
    store, is answered 500. *)
Theorem create_document_status (url : string) :
  match url with
  | EmptyString =>
      create_document url = (inr (HTTPException 400 "URL is required"), [])
  | String _ _ =>
      match fst (create_document url) with
      | inr (HTTPException status _) => status = 500
      | inl _ => True
      end
  end.
Proof.
  destruct url as [|c r]; [reflexivity|].
  rewrite create_document_cases.
  destruct (embed placeholder_text) as [[|[|x v] data]|e|e]; try reflexivity.
  destruct (add_object _ (x :: v)); [exact I|reflexivity].
Qed.

(** X17: when the route succeeds, the provider returned a first vector
    that is not empty, exactly one object was stored with that vector, the
    url, the title "Scraped Document" and the placeholder text, and the
    response carries the id of that object, the whole placeholder text and
    the first ten components of the vector. *)
Theorem create_document_success (url : string) (r : created float) :
  fst (create_document url) = inl r ->
  exists v data id,
    embed placeholder_text = Embedded float (v :: data)
    /\ v <> []
    /\ add_object
         {| title := "Scraped Document"; content := placeholder_text;
            Routes.url := url; mainTopics := []; keyEvents := [];
            author := "Unknown"; locations := []; publicationDate := now;
            maritimeTerms := []; lastVerified := now |} v = Ok id
    /\ snd (create_document url)
       = [Embed float placeholder_text;
          AddObject float
            {| title := "Scraped Document"; content := placeholder_text;
               Routes.url := url; mainTopics := []; keyEvents := [];
               author := "Unknown"; locations := []; publicationDate := now;
               maritimeTerms := []; lastVerified := now |} v]
    /\ r = {| message := "Document created and stored successfully!";
              document_ids := [id];
              content_head := placeholder_text;
              embeddings_head := firstn 10 v |}
    /\ length (embeddings_head float r) <= 10.
Proof.
  destruct url as [|c u]; [discriminate|].
  rewrite create_document_cases. cbv zeta. rewrite route_properties.
  destruct (embed placeholder_text) as [[|[|x v] data]|e|e];
    try discriminate.
  destruct (add_object _ (x :: v)) as [id|e] eqn:Hadd; [|discriminate].
  cbn [fst snd]. intros [= <-].
  exists (x :: v), data, id.
  split; [reflexivity|]. split; [discriminate|]. split; [exact Hadd|].
  split; [reflexivity|]. split; [reflexivity|].
  exact (firstn_le_length 10 (x :: v)).
Qed.

(** X18: whatever the outcome, an object reaches the store only for a url
    that is not empty and with the first vector the provider returned, which
    is not empty; at most one object is sent per request. *)
Theorem create_document_stores (url : string) :
  length (filter (fun c => match c with AddObject _ _ _ => true | _ => false end)
            (snd (create_document url))) <= 1
  /\ forall p v,
       In (AddObject float p v) (snd (create_document url)) ->
       url <> ""
       /\ v <> []
       /\ (exists data, embed placeholder_text = Embedded float (v :: data))
       /\ content p = placeholder_text
       /\ Routes.url p = url.
Proof.
  destruct url as [|c u]; [split; [cbn; lia|intros p v []]|].
  rewrite create_document_cases. cbv zeta. rewrite route_properties.
  destruct (embed placeholder_text) as [[|[|x v] data]|e|e];
    try (split; [cbn; lia|intros p0 v0 [H|[]]; discriminate]).
  assert (H : forall p0 v0,
             In (AddObject float p0 v0)
               [Embed float placeholder_text;
                AddObject float
                  {| title := "Scraped Document"; content := placeholder_text;
                     Routes.url := String c u; mainTopics := [];
                     keyEvents := []; author := "Unknown"; locations := [];
                     publicationDate := now; maritimeTerms := [];
                     lastVerified := now |} (x :: v)] ->
             String c u <> "" /\ v0 <> []
             /\ (exists data0,
                   Embedded float ((x :: v) :: data)
                   = Embedded float (v0 :: data0))
             /\ content p0 = placeholder_text /\ Routes.url p0 = String c u).
  { intros p0 v0 [H|[H|[]]]; [discriminate|]. injection H as <- <-.
    repeat split; try discriminate. now exists data. }
  destruct (add_object _ (x :: v)); cbn [snd]; (split; [cbn; lia|exact H]).
Qed.

End Route.

Lemma create_document_success_witness :
  exists v data id,
    (fun _ : string => Embedded nat [[1; 2; 3]]) placeholder_text
    = Embedded nat (v :: data)
    /\ v <> []
    /\ snd (Routes.create_document nat "2025-01-15T00:00:00"
              (fun _ => Embedded nat [[1; 2; 3]]) (fun _ _ => Ok "uuid-1")
              "https://example.org/a")
       = [Embed nat placeholder_text;
          AddObject nat
            {| title := "Scraped Document"; content := placeholder_text;
               Routes.url := "https://example.org/a"; mainTopics := [];
               keyEvents := []; author := "Unknown"; locations := [];
               publicationDate := "2025-01-15T00:00:00"; maritimeTerms := [];
               lastVerified := "2025-01-15T00:00:00" |} v]
    /\ id = "uuid-1".
Proof.
  destruct (create_document_success nat "2025-01-15T00:00:00"
              (fun _ => Embedded nat [[1; 2; 3]]) (fun _ _ => Ok "uuid-1")
              "https://example.org/a" _ eq_refl)
    as (v & data & id & He & Hv & Ha & Hs & _).
  exists v, data, id. repeat split; try assumption.
  now injection Ha.
Defined.

End RouteFacts.

(** ** The perform-search route *)
Module SearchFacts.
Import PyStr Routes Search MoreScenarios.

Section Search.

Variable float : Type.
Variable results : Type.
Variable embed : string -> embed_outcome float.
Variable near_text : string -> nat -> res results.
Variable http_str : http_exception -> string.

Abbreviation perform_search :=
  (perform_search float results embed near_text http_str).

(** X19: every failure of the search route is answered 500. This includes
    the empty query: the 400 raised for it is caught by the general handler
    and wrapped, its text becoming the detail, and no call is made. *)
Theorem perform_search_failures (query : string) :
  perform_search ""
  = (inr (HTTPException 500
            (http_str (HTTPException 400 "Search query is required"))), [])
  /\ match fst (perform_search query) with
     | inr (HTTPException status _) => status = 500
     | inl _ => True
     end.
Proof.
  split; [reflexivity|].
  unfold perform_search, Search.perform_search, search_similar.
  destruct (negb (truthy query)); [reflexivity|].
  destruct (embed query) as [[|[|x v] data]|e|e]; try reflexivity.
  destruct (near_text query default_limit); [exact I|reflexivity].
Qed.

(** X20: when the search route succeeds, the query is not empty, the
    provider returned a first vector that is not empty, and the results are
    those of one [near_text] query of the store on the query text with
    limit 5: the vector computed by the provider is not part of the store
    call. *)
Theorem perform_search_success (query : string) (r : results) :
  fst (perform_search query) = inl r ->
  query <> ""
  /\ (exists v data, embed query = Embedded float (v :: data) /\ v <> [])
  /\ near_text query 5 = Ok r
  /\ snd (perform_search query) = [SearchEmbed query; NearText query 5].
Proof.
  unfold perform_search, Search.perform_search, search_similar, default_limit.
  destruct query as [|c q]; [discriminate|]. cbn [truthy negb].
  destruct (embed (String c q)) as [[|[|x v] data]|e|e]; try discriminate.
  destruct (near_text (String c q) 5) as [r'|e] eqn:Hn; [|discriminate].
  cbn [fst snd]. intros [= <-]. repeat split; try discriminate.
  exists (x :: v), data. split; [reflexivity|discriminate].
Qed.

End Search.

Lemma perform_search_success_witness :
  near_text_demo "imsbc code" 5 = Ok ["doc-7"]
  /\ snd (Search.perform_search nat (list string)
            (fun _ => Embedded nat [[1; 2; 3]]) near_text_demo
            (fun _ => "") "imsbc code")
     = [SearchEmbed "imsbc code"; NearText "imsbc code" 5].
Proof.
  destruct (perform_search_success nat (list string)
              (fun _ => Embedded nat [[1; 2; 3]]) near_text_demo
              (fun _ => "") "imsbc code" ["doc-7"] eq_refl)
    as (_ & _ & Hn & Hs).
  split; [exact Hn|exact Hs].
Defined.

End SearchFacts.
